(** * video-server: the room presence registry of [src/index.ts]

    A shallow embedding of the Socket.IO part of the server: the [rooms]
    registry ([Map<roomId, Map<uid, VideoUser>>]), the per-socket data
    ([socket.data.rid], [socket.data.uid]), the socket's transport groups
    ([socket.join] / [socket.leave]) and the three handlers [video:join],
    [video:leave] and [disconnect]; and of the origin check of the CORS
    callbacks.

    A JavaScript string is the sequence of its UTF-16 code units, each a
    number below 65536.  [trim] strips the white space and the line
    terminators of ECMAScript; [toUpperCase] maps code points, a surrogate
    pair being one code point, by the full upper-case mapping of Unicode
    14.0 (UnicodeData.txt and the unconditional part of SpecialCasing.txt). *)

From Stdlib Require Import Ascii NArith.
From stdpp Require Import base strings list gmap.

(** ** JavaScript strings *)

(** A string: its UTF-16 code units, numbers below 65536.  A larger number
    stands for no code unit; the functions below leave it as it is. *)
Abbreviation jsstring := (list N).

(** The string of a literal of this file, one code unit for each of its
    characters. *)
Definition lit (s : string) : jsstring :=
  List.map N_of_ascii (String.list_ascii_of_string s).
Arguments lit s%_string : simpl never.

Module Js.

(** The values a payload field can hold.  [String(v)] of a number or of an
    object is not modelled. *)
Inductive value :=
| Undefined
| Null
| Bool (b : bool)
| Str (s : jsstring).

(** [s === t] on strings. *)
Definition eqb (s t : jsstring) : bool := bool_decide (s = t).

(** Truthiness of a string: only the empty string is falsy. *)
Definition truthy_str (s : jsstring) : bool :=
  match s with
  | [] => false
  | _ :: _ => true
  end.

(** Truthiness of a value. *)
Definition truthy (v : value) : bool :=
  match v with
  | Undefined | Null => false
  | Bool b => b
  | Str s => truthy_str s
  end.

(** [String(v || "")]. *)
Definition String_or_empty (v : value) : jsstring :=
  match v with
  | Undefined | Null => []
  | Bool b => if b then lit "true" else []
  | Str s => s
  end.

(** [s || d] on strings. *)
Definition str_or (s d : jsstring) : jsstring :=
  if truthy_str s then s else d.

(** The code units [trim] strips: WhiteSpace (TAB, VT, FF, U+FEFF and the
    category Zs: U+0020, U+00A0, U+1680, U+2000 to U+200A, U+202F, U+205F,
    U+3000) and LineTerminator (LF, CR, U+2028, U+2029). *)
Definition is_ws (u : N) : bool :=
  ((9 <=? u) && (u <=? 13) || (u =? 32) || (u =? 160) || (u =? 5760)
   || (8192 <=? u) && (u <=? 8202) || (u =? 8232) || (u =? 8233)
   || (u =? 8239) || (u =? 8287) || (u =? 12288) || (u =? 65279))%N.

Fixpoint trimStart (s : jsstring) : jsstring :=
  match s with
  | [] => []
  | a :: s' => if is_ws a then trimStart s' else s
  end.

Fixpoint trimEnd (s : jsstring) : jsstring :=
  match s with
  | [] => []
  | a :: s' =>
      match trimEnd s' with
      | [] => if is_ws a then [] else [a]
      | r => a :: r
      end
  end.

(** [s.trim()]. *)
Definition trim (s : jsstring) : jsstring := trimEnd (trimStart s).

(** The two halves of a surrogate pair. *)
Definition is_high (u : N) : bool := ((55296 <=? u) && (u <=? 56319))%N.
Definition is_low (u : N) : bool := ((56320 <=? u) && (u <=? 57343))%N.

(** The first entry of a table under a key. *)
Fixpoint assoc {K V : Type} (eq : K -> K -> bool) (k : K) (l : list (K * V))
  : option V :=
  match l with
  | [] => None
  | (k', v) :: l' => if eq k k' then Some v else assoc eq k l'
  end.

(** The upper-case mapping of the code points below U+10000 that have one:
    the code point and the code units of its upper case. *)
Definition upper_bmp : list (N * list N) := [
  (97, [65]); (98, [66]); (99, [67]); (100, [68]); (101, [69]); (102, [70]);
  (103, [71]); (104, [72]); (105, [73]); (106, [74]); (107, [75]);
  (108, [76]); (109, [77]); (110, [78]); (111, [79]); (112, [80]);
  (113, [81]); (114, [82]); (115, [83]); (116, [84]); (117, [85]);
  (118, [86]); (119, [87]); (120, [88]); (121, [89]); (122, [90]);
  (181, [924]); (223, [83; 83]); (224, [192]); (225, [193]); (226, [194]);
  (227, [195]); (228, [196]); (229, [197]); (230, [198]); (231, [199]);
  (232, [200]); (233, [201]); (234, [202]); (235, [203]); (236, [204]);
  (237, [205]); (238, [206]); (239, [207]); (240, [208]); (241, [209]);
  (242, [210]); (243, [211]); (244, [212]); (245, [213]); (246, [214]);
  (248, [216]); (249, [217]); (250, [218]); (251, [219]); (252, [220]);
  (253, [221]); (254, [222]); (255, [376]); (257, [256]); (259, [258]);
  (261, [260]); (263, [262]); (265, [264]); (267, [266]); (269, [268]);
  (271, [270]); (273, [272]); (275, [274]); (277, [276]); (279, [278]);
  (281, [280]); (283, [282]); (285, [284]); (287, [286]); (289, [288]);
  (291, [290]); (293, [292]); (295, [294]); (297, [296]); (299, [298]);
  (301, [300]); (303, [302]); (305, [73]); (307, [306]); (309, [308]);
  (311, [310]); (314, [313]); (316, [315]); (318, [317]); (320, [319]);
  (322, [321]); (324, [323]); (326, [325]); (328, [327]); (329, [700; 78]);
  (331, [330]); (333, [332]); (335, [334]); (337, [336]); (339, [338]);
  (341, [340]); (343, [342]); (345, [344]); (347, [346]); (349, [348]);
  (351, [350]); (353, [352]); (355, [354]); (357, [356]); (359, [358]);
  (361, [360]); (363, [362]); (365, [364]); (367, [366]); (369, [368]);
  (371, [370]); (373, [372]); (375, [374]); (378, [377]); (380, [379]);
  (382, [381]); (383, [83]); (384, [579]); (387, [386]); (389, [388]);
  (392, [391]); (396, [395]); (402, [401]); (405, [502]); (409, [408]);
  (410, [573]); (414, [544]); (417, [416]); (419, [418]); (421, [420]);
  (424, [423]); (429, [428]); (432, [431]); (436, [435]); (438, [437]);
  (441, [440]); (445, [444]); (447, [503]); (453, [452]); (454, [452]);
  (456, [455]); (457, [455]); (459, [458]); (460, [458]); (462, [461]);
  (464, [463]); (466, [465]); (468, [467]); (470, [469]); (472, [471]);
  (474, [473]); (476, [475]); (477, [398]); (479, [478]); (481, [480]);
  (483, [482]); (485, [484]); (487, [486]); (489, [488]); (491, [490]);
  (493, [492]); (495, [494]); (496, [74; 780]); (498, [497]); (499, [497]);
  (501, [500]); (505, [504]); (507, [506]); (509, [508]); (511, [510]);
  (513, [512]); (515, [514]); (517, [516]); (519, [518]); (521, [520]);
  (523, [522]); (525, [524]); (527, [526]); (529, [528]); (531, [530]);
  (533, [532]); (535, [534]); (537, [536]); (539, [538]); (541, [540]);
  (543, [542]); (547, [546]); (549, [548]); (551, [550]); (553, [552]);
  (555, [554]); (557, [556]); (559, [558]); (561, [560]); (563, [562]);
  (572, [571]); (575, [11390]); (576, [11391]); (578, [577]); (583, [582]);
  (585, [584]); (587, [586]); (589, [588]); (591, [590]); (592, [11375]);
  (593, [11373]); (594, [11376]); (595, [385]); (596, [390]); (598, [393]);
  (599, [394]); (601, [399]); (603, [400]); (604, [42923]); (608, [403]);
  (609, [42924]); (611, [404]); (613, [42893]); (614, [42922]); (616, [407]);
  (617, [406]); (618, [42926]); (619, [11362]); (620, [42925]); (623, [412]);
  (625, [11374]); (626, [413]); (629, [415]); (637, [11364]); (640, [422]);
  (642, [42949]); (643, [425]); (647, [42929]); (648, [430]); (649, [580]);
  (650, [433]); (651, [434]); (652, [581]); (658, [439]); (669, [42930]);
  (670, [42928]); (837, [921]); (881, [880]); (883, [882]); (887, [886]);
  (891, [1021]); (892, [1022]); (893, [1023]); (912, [921; 776; 769]);
  (940, [902]); (941, [904]); (942, [905]); (943, [906]);
  (944, [933; 776; 769]); (945, [913]); (946, [914]); (947, [915]);
  (948, [916]); (949, [917]); (950, [918]); (951, [919]); (952, [920]);
  (953, [921]); (954, [922]); (955, [923]); (956, [924]); (957, [925]);
  (958, [926]); (959, [927]); (960, [928]); (961, [929]); (962, [931]);
  (963, [931]); (964, [932]); (965, [933]); (966, [934]); (967, [935]);
  (968, [936]); (969, [937]); (970, [938]); (971, [939]); (972, [908]);
  (973, [910]); (974, [911]); (976, [914]); (977, [920]); (981, [934]);
  (982, [928]); (983, [975]); (985, [984]); (987, [986]); (989, [988]);
  (991, [990]); (993, [992]); (995, [994]); (997, [996]); (999, [998]);
  (1001, [1000]); (1003, [1002]); (1005, [1004]); (1007, [1006]);
  (1008, [922]); (1009, [929]); (1010, [1017]); (1011, [895]); (1013, [917]);
  (1016, [1015]); (1019, [1018]); (1072, [1040]); (1073, [1041]);
  (1074, [1042]); (1075, [1043]); (1076, [1044]); (1077, [1045]);
  (1078, [1046]); (1079, [1047]); (1080, [1048]); (1081, [1049]);
  (1082, [1050]); (1083, [1051]); (1084, [1052]); (1085, [1053]);
  (1086, [1054]); (1087, [1055]); (1088, [1056]); (1089, [1057]);
  (1090, [1058]); (1091, [1059]); (1092, [1060]); (1093, [1061]);
  (1094, [1062]); (1095, [1063]); (1096, [1064]); (1097, [1065]);
  (1098, [1066]); (1099, [1067]); (1100, [1068]); (1101, [1069]);
  (1102, [1070]); (1103, [1071]); (1104, [1024]); (1105, [1025]);
  (1106, [1026]); (1107, [1027]); (1108, [1028]); (1109, [1029]);
  (1110, [1030]); (1111, [1031]); (1112, [1032]); (1113, [1033]);
  (1114, [1034]); (1115, [1035]); (1116, [1036]); (1117, [1037]);
  (1118, [1038]); (1119, [1039]); (1121, [1120]); (1123, [1122]);
  (1125, [1124]); (1127, [1126]); (1129, [1128]); (1131, [1130]);
  (1133, [1132]); (1135, [1134]); (1137, [1136]); (1139, [1138]);
  (1141, [1140]); (1143, [1142]); (1145, [1144]); (1147, [1146]);
  (1149, [1148]); (1151, [1150]); (1153, [1152]); (1163, [1162]);
  (1165, [1164]); (1167, [1166]); (1169, [1168]); (1171, [1170]);
  (1173, [1172]); (1175, [1174]); (1177, [1176]); (1179, [1178]);
  (1181, [1180]); (1183, [1182]); (1185, [1184]); (1187, [1186]);
  (1189, [1188]); (1191, [1190]); (1193, [1192]); (1195, [1194]);
  (1197, [1196]); (1199, [1198]); (1201, [1200]); (1203, [1202]);
  (1205, [1204]); (1207, [1206]); (1209, [1208]); (1211, [1210]);
  (1213, [1212]); (1215, [1214]); (1218, [1217]); (1220, [1219]);
  (1222, [1221]); (1224, [1223]); (1226, [1225]); (1228, [1227]);
  (1230, [1229]); (1231, [1216]); (1233, [1232]); (1235, [1234]);
  (1237, [1236]); (1239, [1238]); (1241, [1240]); (1243, [1242]);
  (1245, [1244]); (1247, [1246]); (1249, [1248]); (1251, [1250]);
  (1253, [1252]); (1255, [1254]); (1257, [1256]); (1259, [1258]);
  (1261, [1260]); (1263, [1262]); (1265, [1264]); (1267, [1266]);
  (1269, [1268]); (1271, [1270]); (1273, [1272]); (1275, [1274]);
  (1277, [1276]); (1279, [1278]); (1281, [1280]); (1283, [1282]);
  (1285, [1284]); (1287, [1286]); (1289, [1288]); (1291, [1290]);
  (1293, [1292]); (1295, [1294]); (1297, [1296]); (1299, [1298]);
  (1301, [1300]); (1303, [1302]); (1305, [1304]); (1307, [1306]);
  (1309, [1308]); (1311, [1310]); (1313, [1312]); (1315, [1314]);
  (1317, [1316]); (1319, [1318]); (1321, [1320]); (1323, [1322]);
  (1325, [1324]); (1327, [1326]); (1377, [1329]); (1378, [1330]);
  (1379, [1331]); (1380, [1332]); (1381, [1333]); (1382, [1334]);
  (1383, [1335]); (1384, [1336]); (1385, [1337]); (1386, [1338]);
  (1387, [1339]); (1388, [1340]); (1389, [1341]); (1390, [1342]);
  (1391, [1343]); (1392, [1344]); (1393, [1345]); (1394, [1346]);
  (1395, [1347]); (1396, [1348]); (1397, [1349]); (1398, [1350]);
  (1399, [1351]); (1400, [1352]); (1401, [1353]); (1402, [1354]);
  (1403, [1355]); (1404, [1356]); (1405, [1357]); (1406, [1358]);
  (1407, [1359]); (1408, [1360]); (1409, [1361]); (1410, [1362]);
  (1411, [1363]); (1412, [1364]); (1413, [1365]); (1414, [1366]);
  (1415, [1333; 1362]); (4304, [7312]); (4305, [7313]); (4306, [7314]);
  (4307, [7315]); (4308, [7316]); (4309, [7317]); (4310, [7318]);
  (4311, [7319]); (4312, [7320]); (4313, [7321]); (4314, [7322]);
  (4315, [7323]); (4316, [7324]); (4317, [7325]); (4318, [7326]);
  (4319, [7327]); (4320, [7328]); (4321, [7329]); (4322, [7330]);
  (4323, [7331]); (4324, [7332]); (4325, [7333]); (4326, [7334]);
  (4327, [7335]); (4328, [7336]); (4329, [7337]); (4330, [7338]);
  (4331, [7339]); (4332, [7340]); (4333, [7341]); (4334, [7342]);
  (4335, [7343]); (4336, [7344]); (4337, [7345]); (4338, [7346]);
  (4339, [7347]); (4340, [7348]); (4341, [7349]); (4342, [7350]);
  (4343, [7351]); (4344, [7352]); (4345, [7353]); (4346, [7354]);
  (4349, [7357]); (4350, [7358]); (4351, [7359]); (5112, [5104]);
  (5113, [5105]); (5114, [5106]); (5115, [5107]); (5116, [5108]);
  (5117, [5109]); (7296, [1042]); (7297, [1044]); (7298, [1054]);
  (7299, [1057]); (7300, [1058]); (7301, [1058]); (7302, [1066]);
  (7303, [1122]); (7304, [42570]); (7545, [42877]); (7549, [11363]);
  (7566, [42950]); (7681, [7680]); (7683, [7682]); (7685, [7684]);
  (7687, [7686]); (7689, [7688]); (7691, [7690]); (7693, [7692]);
  (7695, [7694]); (7697, [7696]); (7699, [7698]); (7701, [7700]);
  (7703, [7702]); (7705, [7704]); (7707, [7706]); (7709, [7708]);
  (7711, [7710]); (7713, [7712]); (7715, [7714]); (7717, [7716]);
  (7719, [7718]); (7721, [7720]); (7723, [7722]); (7725, [7724]);
  (7727, [7726]); (7729, [7728]); (7731, [7730]); (7733, [7732]);
  (7735, [7734]); (7737, [7736]); (7739, [7738]); (7741, [7740]);
  (7743, [7742]); (7745, [7744]); (7747, [7746]); (7749, [7748]);
  (7751, [7750]); (7753, [7752]); (7755, [7754]); (7757, [7756]);
  (7759, [7758]); (7761, [7760]); (7763, [7762]); (7765, [7764]);
  (7767, [7766]); (7769, [7768]); (7771, [7770]); (7773, [7772]);
  (7775, [7774]); (7777, [7776]); (7779, [7778]); (7781, [7780]);
  (7783, [7782]); (7785, [7784]); (7787, [7786]); (7789, [7788]);
  (7791, [7790]); (7793, [7792]); (7795, [7794]); (7797, [7796]);
  (7799, [7798]); (7801, [7800]); (7803, [7802]); (7805, [7804]);
  (7807, [7806]); (7809, [7808]); (7811, [7810]); (7813, [7812]);
  (7815, [7814]); (7817, [7816]); (7819, [7818]); (7821, [7820]);
  (7823, [7822]); (7825, [7824]); (7827, [7826]); (7829, [7828]);
  (7830, [72; 817]); (7831, [84; 776]); (7832, [87; 778]); (7833, [89; 778]);
  (7834, [65; 702]); (7835, [7776]); (7841, [7840]); (7843, [7842]);
  (7845, [7844]); (7847, [7846]); (7849, [7848]); (7851, [7850]);
  (7853, [7852]); (7855, [7854]); (7857, [7856]); (7859, [7858]);
  (7861, [7860]); (7863, [7862]); (7865, [7864]); (7867, [7866]);
  (7869, [7868]); (7871, [7870]); (7873, [7872]); (7875, [7874]);
  (7877, [7876]); (7879, [7878]); (7881, [7880]); (7883, [7882]);
  (7885, [7884]); (7887, [7886]); (7889, [7888]); (7891, [7890]);
  (7893, [7892]); (7895, [7894]); (7897, [7896]); (7899, [7898]);
  (7901, [7900]); (7903, [7902]); (7905, [7904]); (7907, [7906]);
  (7909, [7908]); (7911, [7910]); (7913, [7912]); (7915, [7914]);
  (7917, [7916]); (7919, [7918]); (7921, [7920]); (7923, [7922]);
  (7925, [7924]); (7927, [7926]); (7929, [7928]); (7931, [7930]);
  (7933, [7932]); (7935, [7934]); (7936, [7944]); (7937, [7945]);
  (7938, [7946]); (7939, [7947]); (7940, [7948]); (7941, [7949]);
  (7942, [7950]); (7943, [7951]); (7952, [7960]); (7953, [7961]);
  (7954, [7962]); (7955, [7963]); (7956, [7964]); (7957, [7965]);
  (7968, [7976]); (7969, [7977]); (7970, [7978]); (7971, [7979]);
  (7972, [7980]); (7973, [7981]); (7974, [7982]); (7975, [7983]);
  (7984, [7992]); (7985, [7993]); (7986, [7994]); (7987, [7995]);
  (7988, [7996]); (7989, [7997]); (7990, [7998]); (7991, [7999]);
  (8000, [8008]); (8001, [8009]); (8002, [8010]); (8003, [8011]);
  (8004, [8012]); (8005, [8013]); (8016, [933; 787]); (8017, [8025]);
  (8018, [933; 787; 768]); (8019, [8027]); (8020, [933; 787; 769]);
  (8021, [8029]); (8022, [933; 787; 834]); (8023, [8031]); (8032, [8040]);
  (8033, [8041]); (8034, [8042]); (8035, [8043]); (8036, [8044]);
  (8037, [8045]); (8038, [8046]); (8039, [8047]); (8048, [8122]);
  (8049, [8123]); (8050, [8136]); (8051, [8137]); (8052, [8138]);
  (8053, [8139]); (8054, [8154]); (8055, [8155]); (8056, [8184]);
  (8057, [8185]); (8058, [8170]); (8059, [8171]); (8060, [8186]);
  (8061, [8187]); (8064, [7944; 921]); (8065, [7945; 921]);
  (8066, [7946; 921]); (8067, [7947; 921]); (8068, [7948; 921]);
  (8069, [7949; 921]); (8070, [7950; 921]); (8071, [7951; 921]);
  (8072, [7944; 921]); (8073, [7945; 921]); (8074, [7946; 921]);
  (8075, [7947; 921]); (8076, [7948; 921]); (8077, [7949; 921]);
  (8078, [7950; 921]); (8079, [7951; 921]); (8080, [7976; 921]);
  (8081, [7977; 921]); (8082, [7978; 921]); (8083, [7979; 921]);
  (8084, [7980; 921]); (8085, [7981; 921]); (8086, [7982; 921]);
  (8087, [7983; 921]); (8088, [7976; 921]); (8089, [7977; 921]);
  (8090, [7978; 921]); (8091, [7979; 921]); (8092, [7980; 921]);
  (8093, [7981; 921]); (8094, [7982; 921]); (8095, [7983; 921]);
  (8096, [8040; 921]); (8097, [8041; 921]); (8098, [8042; 921]);
  (8099, [8043; 921]); (8100, [8044; 921]); (8101, [8045; 921]);
  (8102, [8046; 921]); (8103, [8047; 921]); (8104, [8040; 921]);
  (8105, [8041; 921]); (8106, [8042; 921]); (8107, [8043; 921]);
  (8108, [8044; 921]); (8109, [8045; 921]); (8110, [8046; 921]);
  (8111, [8047; 921]); (8112, [8120]); (8113, [8121]); (8114, [8122; 921]);
  (8115, [913; 921]); (8116, [902; 921]); (8118, [913; 834]);
  (8119, [913; 834; 921]); (8124, [913; 921]); (8126, [921]);
  (8130, [8138; 921]); (8131, [919; 921]); (8132, [905; 921]);
  (8134, [919; 834]); (8135, [919; 834; 921]); (8140, [919; 921]);
  (8144, [8152]); (8145, [8153]); (8146, [921; 776; 768]);
  (8147, [921; 776; 769]); (8150, [921; 834]); (8151, [921; 776; 834]);
  (8160, [8168]); (8161, [8169]); (8162, [933; 776; 768]);
  (8163, [933; 776; 769]); (8164, [929; 787]); (8165, [8172]);
  (8166, [933; 834]); (8167, [933; 776; 834]); (8178, [8186; 921]);
  (8179, [937; 921]); (8180, [911; 921]); (8182, [937; 834]);
  (8183, [937; 834; 921]); (8188, [937; 921]); (8526, [8498]);
  (8560, [8544]); (8561, [8545]); (8562, [8546]); (8563, [8547]);
  (8564, [8548]); (8565, [8549]); (8566, [8550]); (8567, [8551]);
  (8568, [8552]); (8569, [8553]); (8570, [8554]); (8571, [8555]);
  (8572, [8556]); (8573, [8557]); (8574, [8558]); (8575, [8559]);
  (8580, [8579]); (9424, [9398]); (9425, [9399]); (9426, [9400]);
  (9427, [9401]); (9428, [9402]); (9429, [9403]); (9430, [9404]);
  (9431, [9405]); (9432, [9406]); (9433, [9407]); (9434, [9408]);
  (9435, [9409]); (9436, [9410]); (9437, [9411]); (9438, [9412]);
  (9439, [9413]); (9440, [9414]); (9441, [9415]); (9442, [9416]);
  (9443, [9417]); (9444, [9418]); (9445, [9419]); (9446, [9420]);
  (9447, [9421]); (9448, [9422]); (9449, [9423]); (11312, [11264]);
  (11313, [11265]); (11314, [11266]); (11315, [11267]); (11316, [11268]);
  (11317, [11269]); (11318, [11270]); (11319, [11271]); (11320, [11272]);
  (11321, [11273]); (11322, [11274]); (11323, [11275]); (11324, [11276]);
  (11325, [11277]); (11326, [11278]); (11327, [11279]); (11328, [11280]);
  (11329, [11281]); (11330, [11282]); (11331, [11283]); (11332, [11284]);
  (11333, [11285]); (11334, [11286]); (11335, [11287]); (11336, [11288]);
  (11337, [11289]); (11338, [11290]); (11339, [11291]); (11340, [11292]);
  (11341, [11293]); (11342, [11294]); (11343, [11295]); (11344, [11296]);
  (11345, [11297]); (11346, [11298]); (11347, [11299]); (11348, [11300]);
  (11349, [11301]); (11350, [11302]); (11351, [11303]); (11352, [11304]);
  (11353, [11305]); (11354, [11306]); (11355, [11307]); (11356, [11308]);
  (11357, [11309]); (11358, [11310]); (11359, [11311]); (11361, [11360]);
  (11365, [570]); (11366, [574]); (11368, [11367]); (11370, [11369]);
  (11372, [11371]); (11379, [11378]); (11382, [11381]); (11393, [11392]);
  (11395, [11394]); (11397, [11396]); (11399, [11398]); (11401, [11400]);
  (11403, [11402]); (11405, [11404]); (11407, [11406]); (11409, [11408]);
  (11411, [11410]); (11413, [11412]); (11415, [11414]); (11417, [11416]);
  (11419, [11418]); (11421, [11420]); (11423, [11422]); (11425, [11424]);
  (11427, [11426]); (11429, [11428]); (11431, [11430]); (11433, [11432]);
  (11435, [11434]); (11437, [11436]); (11439, [11438]); (11441, [11440]);
  (11443, [11442]); (11445, [11444]); (11447, [11446]); (11449, [11448]);
  (11451, [11450]); (11453, [11452]); (11455, [11454]); (11457, [11456]);
  (11459, [11458]); (11461, [11460]); (11463, [11462]); (11465, [11464]);
  (11467, [11466]); (11469, [11468]); (11471, [11470]); (11473, [11472]);
  (11475, [11474]); (11477, [11476]); (11479, [11478]); (11481, [11480]);
  (11483, [11482]); (11485, [11484]); (11487, [11486]); (11489, [11488]);
  (11491, [11490]); (11500, [11499]); (11502, [11501]); (11507, [11506]);
  (11520, [4256]); (11521, [4257]); (11522, [4258]); (11523, [4259]);
  (11524, [4260]); (11525, [4261]); (11526, [4262]); (11527, [4263]);
  (11528, [4264]); (11529, [4265]); (11530, [4266]); (11531, [4267]);
  (11532, [4268]); (11533, [4269]); (11534, [4270]); (11535, [4271]);
  (11536, [4272]); (11537, [4273]); (11538, [4274]); (11539, [4275]);
  (11540, [4276]); (11541, [4277]); (11542, [4278]); (11543, [4279]);
  (11544, [4280]); (11545, [4281]); (11546, [4282]); (11547, [4283]);
  (11548, [4284]); (11549, [4285]); (11550, [4286]); (11551, [4287]);
  (11552, [4288]); (11553, [4289]); (11554, [4290]); (11555, [4291]);
  (11556, [4292]); (11557, [4293]); (11559, [4295]); (11565, [4301]);
  (42561, [42560]); (42563, [42562]); (42565, [42564]); (42567, [42566]);
  (42569, [42568]); (42571, [42570]); (42573, [42572]); (42575, [42574]);
  (42577, [42576]); (42579, [42578]); (42581, [42580]); (42583, [42582]);
  (42585, [42584]); (42587, [42586]); (42589, [42588]); (42591, [42590]);
  (42593, [42592]); (42595, [42594]); (42597, [42596]); (42599, [42598]);
  (42601, [42600]); (42603, [42602]); (42605, [42604]); (42625, [42624]);
  (42627, [42626]); (42629, [42628]); (42631, [42630]); (42633, [42632]);
  (42635, [42634]); (42637, [42636]); (42639, [42638]); (42641, [42640]);
  (42643, [42642]); (42645, [42644]); (42647, [42646]); (42649, [42648]);
  (42651, [42650]); (42787, [42786]); (42789, [42788]); (42791, [42790]);
  (42793, [42792]); (42795, [42794]); (42797, [42796]); (42799, [42798]);
  (42803, [42802]); (42805, [42804]); (42807, [42806]); (42809, [42808]);
  (42811, [42810]); (42813, [42812]); (42815, [42814]); (42817, [42816]);
  (42819, [42818]); (42821, [42820]); (42823, [42822]); (42825, [42824]);
  (42827, [42826]); (42829, [42828]); (42831, [42830]); (42833, [42832]);
  (42835, [42834]); (42837, [42836]); (42839, [42838]); (42841, [42840]);
  (42843, [42842]); (42845, [42844]); (42847, [42846]); (42849, [42848]);
  (42851, [42850]); (42853, [42852]); (42855, [42854]); (42857, [42856]);
  (42859, [42858]); (42861, [42860]); (42863, [42862]); (42874, [42873]);
  (42876, [42875]); (42879, [42878]); (42881, [42880]); (42883, [42882]);
  (42885, [42884]); (42887, [42886]); (42892, [42891]); (42897, [42896]);
  (42899, [42898]); (42900, [42948]); (42903, [42902]); (42905, [42904]);
  (42907, [42906]); (42909, [42908]); (42911, [42910]); (42913, [42912]);
  (42915, [42914]); (42917, [42916]); (42919, [42918]); (42921, [42920]);
  (42933, [42932]); (42935, [42934]); (42937, [42936]); (42939, [42938]);
  (42941, [42940]); (42943, [42942]); (42945, [42944]); (42947, [42946]);
  (42952, [42951]); (42954, [42953]); (42961, [42960]); (42967, [42966]);
  (42969, [42968]); (42998, [42997]); (43859, [42931]); (43888, [5024]);
  (43889, [5025]); (43890, [5026]); (43891, [5027]); (43892, [5028]);
  (43893, [5029]); (43894, [5030]); (43895, [5031]); (43896, [5032]);
  (43897, [5033]); (43898, [5034]); (43899, [5035]); (43900, [5036]);
  (43901, [5037]); (43902, [5038]); (43903, [5039]); (43904, [5040]);
  (43905, [5041]); (43906, [5042]); (43907, [5043]); (43908, [5044]);
  (43909, [5045]); (43910, [5046]); (43911, [5047]); (43912, [5048]);
  (43913, [5049]); (43914, [5050]); (43915, [5051]); (43916, [5052]);
  (43917, [5053]); (43918, [5054]); (43919, [5055]); (43920, [5056]);
  (43921, [5057]); (43922, [5058]); (43923, [5059]); (43924, [5060]);
  (43925, [5061]); (43926, [5062]); (43927, [5063]); (43928, [5064]);
  (43929, [5065]); (43930, [5066]); (43931, [5067]); (43932, [5068]);
  (43933, [5069]); (43934, [5070]); (43935, [5071]); (43936, [5072]);
  (43937, [5073]); (43938, [5074]); (43939, [5075]); (43940, [5076]);
  (43941, [5077]); (43942, [5078]); (43943, [5079]); (43944, [5080]);
  (43945, [5081]); (43946, [5082]); (43947, [5083]); (43948, [5084]);
  (43949, [5085]); (43950, [5086]); (43951, [5087]); (43952, [5088]);
  (43953, [5089]); (43954, [5090]); (43955, [5091]); (43956, [5092]);
  (43957, [5093]); (43958, [5094]); (43959, [5095]); (43960, [5096]);
  (43961, [5097]); (43962, [5098]); (43963, [5099]); (43964, [5100]);
  (43965, [5101]); (43966, [5102]); (43967, [5103]); (64256, [70; 70]);
  (64257, [70; 73]); (64258, [70; 76]); (64259, [70; 70; 73]);
  (64260, [70; 70; 76]); (64261, [83; 84]); (64262, [83; 84]);
  (64275, [1348; 1350]); (64276, [1348; 1333]); (64277, [1348; 1339]);
  (64278, [1358; 1350]); (64279, [1348; 1341]); (65345, [65313]);
  (65346, [65314]); (65347, [65315]); (65348, [65316]); (65349, [65317]);
  (65350, [65318]); (65351, [65319]); (65352, [65320]); (65353, [65321]);
  (65354, [65322]); (65355, [65323]); (65356, [65324]); (65357, [65325]);
  (65358, [65326]); (65359, [65327]); (65360, [65328]); (65361, [65329]);
  (65362, [65330]); (65363, [65331]); (65364, [65332]); (65365, [65333]);
  (65366, [65334]); (65367, [65335]); (65368, [65336]); (65369, [65337]);
  (65370, [65338])
]%N.

(** The upper-case mapping of the code points from U+10000 on that have
    one, the code point and its upper case both as surrogate pairs. *)
Definition upper_astral : list (N * N * (N * N)) := [
  (55297, 56360, (55297, 56320)); (55297, 56361, (55297, 56321));
  (55297, 56362, (55297, 56322)); (55297, 56363, (55297, 56323));
  (55297, 56364, (55297, 56324)); (55297, 56365, (55297, 56325));
  (55297, 56366, (55297, 56326)); (55297, 56367, (55297, 56327));
  (55297, 56368, (55297, 56328)); (55297, 56369, (55297, 56329));
  (55297, 56370, (55297, 56330)); (55297, 56371, (55297, 56331));
  (55297, 56372, (55297, 56332)); (55297, 56373, (55297, 56333));
  (55297, 56374, (55297, 56334)); (55297, 56375, (55297, 56335));
  (55297, 56376, (55297, 56336)); (55297, 56377, (55297, 56337));
  (55297, 56378, (55297, 56338)); (55297, 56379, (55297, 56339));
  (55297, 56380, (55297, 56340)); (55297, 56381, (55297, 56341));
  (55297, 56382, (55297, 56342)); (55297, 56383, (55297, 56343));
  (55297, 56384, (55297, 56344)); (55297, 56385, (55297, 56345));
  (55297, 56386, (55297, 56346)); (55297, 56387, (55297, 56347));
  (55297, 56388, (55297, 56348)); (55297, 56389, (55297, 56349));
  (55297, 56390, (55297, 56350)); (55297, 56391, (55297, 56351));
  (55297, 56392, (55297, 56352)); (55297, 56393, (55297, 56353));
  (55297, 56394, (55297, 56354)); (55297, 56395, (55297, 56355));
  (55297, 56396, (55297, 56356)); (55297, 56397, (55297, 56357));
  (55297, 56398, (55297, 56358)); (55297, 56399, (55297, 56359));
  (55297, 56536, (55297, 56496)); (55297, 56537, (55297, 56497));
  (55297, 56538, (55297, 56498)); (55297, 56539, (55297, 56499));
  (55297, 56540, (55297, 56500)); (55297, 56541, (55297, 56501));
  (55297, 56542, (55297, 56502)); (55297, 56543, (55297, 56503));
  (55297, 56544, (55297, 56504)); (55297, 56545, (55297, 56505));
  (55297, 56546, (55297, 56506)); (55297, 56547, (55297, 56507));
  (55297, 56548, (55297, 56508)); (55297, 56549, (55297, 56509));
  (55297, 56550, (55297, 56510)); (55297, 56551, (55297, 56511));
  (55297, 56552, (55297, 56512)); (55297, 56553, (55297, 56513));
  (55297, 56554, (55297, 56514)); (55297, 56555, (55297, 56515));
  (55297, 56556, (55297, 56516)); (55297, 56557, (55297, 56517));
  (55297, 56558, (55297, 56518)); (55297, 56559, (55297, 56519));
  (55297, 56560, (55297, 56520)); (55297, 56561, (55297, 56521));
  (55297, 56562, (55297, 56522)); (55297, 56563, (55297, 56523));
  (55297, 56564, (55297, 56524)); (55297, 56565, (55297, 56525));
  (55297, 56566, (55297, 56526)); (55297, 56567, (55297, 56527));
  (55297, 56568, (55297, 56528)); (55297, 56569, (55297, 56529));
  (55297, 56570, (55297, 56530)); (55297, 56571, (55297, 56531));
  (55297, 56727, (55297, 56688)); (55297, 56728, (55297, 56689));
  (55297, 56729, (55297, 56690)); (55297, 56730, (55297, 56691));
  (55297, 56731, (55297, 56692)); (55297, 56732, (55297, 56693));
  (55297, 56733, (55297, 56694)); (55297, 56734, (55297, 56695));
  (55297, 56735, (55297, 56696)); (55297, 56736, (55297, 56697));
  (55297, 56737, (55297, 56698)); (55297, 56739, (55297, 56700));
  (55297, 56740, (55297, 56701)); (55297, 56741, (55297, 56702));
  (55297, 56742, (55297, 56703)); (55297, 56743, (55297, 56704));
  (55297, 56744, (55297, 56705)); (55297, 56745, (55297, 56706));
  (55297, 56746, (55297, 56707)); (55297, 56747, (55297, 56708));
  (55297, 56748, (55297, 56709)); (55297, 56749, (55297, 56710));
  (55297, 56750, (55297, 56711)); (55297, 56751, (55297, 56712));
  (55297, 56752, (55297, 56713)); (55297, 56753, (55297, 56714));
  (55297, 56755, (55297, 56716)); (55297, 56756, (55297, 56717));
  (55297, 56757, (55297, 56718)); (55297, 56758, (55297, 56719));
  (55297, 56759, (55297, 56720)); (55297, 56760, (55297, 56721));
  (55297, 56761, (55297, 56722)); (55297, 56763, (55297, 56724));
  (55297, 56764, (55297, 56725)); (55299, 56512, (55299, 56448));
  (55299, 56513, (55299, 56449)); (55299, 56514, (55299, 56450));
  (55299, 56515, (55299, 56451)); (55299, 56516, (55299, 56452));
  (55299, 56517, (55299, 56453)); (55299, 56518, (55299, 56454));
  (55299, 56519, (55299, 56455)); (55299, 56520, (55299, 56456));
  (55299, 56521, (55299, 56457)); (55299, 56522, (55299, 56458));
  (55299, 56523, (55299, 56459)); (55299, 56524, (55299, 56460));
  (55299, 56525, (55299, 56461)); (55299, 56526, (55299, 56462));
  (55299, 56527, (55299, 56463)); (55299, 56528, (55299, 56464));
  (55299, 56529, (55299, 56465)); (55299, 56530, (55299, 56466));
  (55299, 56531, (55299, 56467)); (55299, 56532, (55299, 56468));
  (55299, 56533, (55299, 56469)); (55299, 56534, (55299, 56470));
  (55299, 56535, (55299, 56471)); (55299, 56536, (55299, 56472));
  (55299, 56537, (55299, 56473)); (55299, 56538, (55299, 56474));
  (55299, 56539, (55299, 56475)); (55299, 56540, (55299, 56476));
  (55299, 56541, (55299, 56477)); (55299, 56542, (55299, 56478));
  (55299, 56543, (55299, 56479)); (55299, 56544, (55299, 56480));
  (55299, 56545, (55299, 56481)); (55299, 56546, (55299, 56482));
  (55299, 56547, (55299, 56483)); (55299, 56548, (55299, 56484));
  (55299, 56549, (55299, 56485)); (55299, 56550, (55299, 56486));
  (55299, 56551, (55299, 56487)); (55299, 56552, (55299, 56488));
  (55299, 56553, (55299, 56489)); (55299, 56554, (55299, 56490));
  (55299, 56555, (55299, 56491)); (55299, 56556, (55299, 56492));
  (55299, 56557, (55299, 56493)); (55299, 56558, (55299, 56494));
  (55299, 56559, (55299, 56495)); (55299, 56560, (55299, 56496));
  (55299, 56561, (55299, 56497)); (55299, 56562, (55299, 56498));
  (55302, 56512, (55302, 56480)); (55302, 56513, (55302, 56481));
  (55302, 56514, (55302, 56482)); (55302, 56515, (55302, 56483));
  (55302, 56516, (55302, 56484)); (55302, 56517, (55302, 56485));
  (55302, 56518, (55302, 56486)); (55302, 56519, (55302, 56487));
  (55302, 56520, (55302, 56488)); (55302, 56521, (55302, 56489));
  (55302, 56522, (55302, 56490)); (55302, 56523, (55302, 56491));
  (55302, 56524, (55302, 56492)); (55302, 56525, (55302, 56493));
  (55302, 56526, (55302, 56494)); (55302, 56527, (55302, 56495));
  (55302, 56528, (55302, 56496)); (55302, 56529, (55302, 56497));
  (55302, 56530, (55302, 56498)); (55302, 56531, (55302, 56499));
  (55302, 56532, (55302, 56500)); (55302, 56533, (55302, 56501));
  (55302, 56534, (55302, 56502)); (55302, 56535, (55302, 56503));
  (55302, 56536, (55302, 56504)); (55302, 56537, (55302, 56505));
  (55302, 56538, (55302, 56506)); (55302, 56539, (55302, 56507));
  (55302, 56540, (55302, 56508)); (55302, 56541, (55302, 56509));
  (55302, 56542, (55302, 56510)); (55302, 56543, (55302, 56511));
  (55323, 56928, (55323, 56896)); (55323, 56929, (55323, 56897));
  (55323, 56930, (55323, 56898)); (55323, 56931, (55323, 56899));
  (55323, 56932, (55323, 56900)); (55323, 56933, (55323, 56901));
  (55323, 56934, (55323, 56902)); (55323, 56935, (55323, 56903));
  (55323, 56936, (55323, 56904)); (55323, 56937, (55323, 56905));
  (55323, 56938, (55323, 56906)); (55323, 56939, (55323, 56907));
  (55323, 56940, (55323, 56908)); (55323, 56941, (55323, 56909));
  (55323, 56942, (55323, 56910)); (55323, 56943, (55323, 56911));
  (55323, 56944, (55323, 56912)); (55323, 56945, (55323, 56913));
  (55323, 56946, (55323, 56914)); (55323, 56947, (55323, 56915));
  (55323, 56948, (55323, 56916)); (55323, 56949, (55323, 56917));
  (55323, 56950, (55323, 56918)); (55323, 56951, (55323, 56919));
  (55323, 56952, (55323, 56920)); (55323, 56953, (55323, 56921));
  (55323, 56954, (55323, 56922)); (55323, 56955, (55323, 56923));
  (55323, 56956, (55323, 56924)); (55323, 56957, (55323, 56925));
  (55323, 56958, (55323, 56926)); (55323, 56959, (55323, 56927));
  (55354, 56610, (55354, 56576)); (55354, 56611, (55354, 56577));
  (55354, 56612, (55354, 56578)); (55354, 56613, (55354, 56579));
  (55354, 56614, (55354, 56580)); (55354, 56615, (55354, 56581));
  (55354, 56616, (55354, 56582)); (55354, 56617, (55354, 56583));
  (55354, 56618, (55354, 56584)); (55354, 56619, (55354, 56585));
  (55354, 56620, (55354, 56586)); (55354, 56621, (55354, 56587));
  (55354, 56622, (55354, 56588)); (55354, 56623, (55354, 56589));
  (55354, 56624, (55354, 56590)); (55354, 56625, (55354, 56591));
  (55354, 56626, (55354, 56592)); (55354, 56627, (55354, 56593));
  (55354, 56628, (55354, 56594)); (55354, 56629, (55354, 56595));
  (55354, 56630, (55354, 56596)); (55354, 56631, (55354, 56597));
  (55354, 56632, (55354, 56598)); (55354, 56633, (55354, 56599));
  (55354, 56634, (55354, 56600)); (55354, 56635, (55354, 56601));
  (55354, 56636, (55354, 56602)); (55354, 56637, (55354, 56603));
  (55354, 56638, (55354, 56604)); (55354, 56639, (55354, 56605));
  (55354, 56640, (55354, 56606)); (55354, 56641, (55354, 56607));
  (55354, 56642, (55354, 56608)); (55354, 56643, (55354, 56609))
]%N.

Definition pair_eqb (a b : N * N) : bool :=
  (a.1 =? b.1)%N && (a.2 =? b.2)%N.

(** Upper case of a code unit that stands for itself. *)
Definition upper_unit (u : N) : jsstring :=
  match assoc N.eqb u upper_bmp with
  | Some v => v
  | None => [u]
  end.

(** Upper case of a surrogate pair. *)
Definition upper_pair (h l : N) : jsstring :=
  match assoc pair_eqb (h, l) upper_astral with
  | Some (h', l') => [h'; l']
  | None => [h; l]
  end.

(** [s.toUpperCase()]: a high surrogate followed by a low one is one code
    point, any other code unit is one by itself. *)
Fixpoint toUpperCase (s : jsstring) : jsstring :=
  match s with
  | [] => []
  | h :: s' =>
      match s' with
      | l :: s'' =>
          if is_high h && is_low l then upper_pair h l ++ toUpperCase s''
          else upper_unit h ++ toUpperCase s'
      | [] => upper_unit h
      end
  end.

End Js.

(** ** [normRoomId] *)

(** [String(id || "").trim().toUpperCase()] *)
Definition normRoomId (id : Js.value) : jsstring :=
  Js.toUpperCase (Js.trim (Js.String_or_empty id)).


(** ** JavaScript [Map] with string keys

    A [Map] iterates in insertion order, and [set] on a key that is present
    keeps the key's position: the model is an association list in insertion
    order.  The handlers build their maps with [set] and [delete] only, so
    keys are unique in every map they build ([JsMap.wf]). *)

Module JsMap.

Definition t (V : Type) : Type := list (jsstring * V).

Section Ops.
Context {V : Type}.

(** [new Map()] *)
Definition empty : t V := [].

(** [m.get(k)]; [None] stands for [undefined]. *)
Fixpoint get (k : jsstring) (m : t V) : option V :=
  match m with
  | [] => None
  | (k', v) :: m' => if Js.eqb k k' then Some v else get k m'
  end.

(** [m.set(k, v)]: the value is replaced where the key is, or the entry is
    appended. *)
Fixpoint set (k : jsstring) (v : V) (m : t V) : t V :=
  match m with
  | [] => [(k, v)]
  | (k', v') :: m' =>
      if Js.eqb k k' then (k', v) :: m' else (k', v') :: set k v m'
  end.

(** [m.delete(k)] *)
Fixpoint delete (k : jsstring) (m : t V) : t V :=
  match m with
  | [] => []
  | (k', v') :: m' =>
      if Js.eqb k k' then m' else (k', v') :: delete k m'
  end.

(** [m.size] *)
Definition size (m : t V) : nat := length m.

(** [Array.from(m.values())] *)
Definition values (m : t V) : list V := map snd m.

(** [Array.from(m.keys())] *)
Definition keys (m : t V) : list jsstring := map fst m.

(** Keys are unique. *)
Definition wf (m : t V) : Prop := NoDup (keys m).

End Ops.
End JsMap.

(** ** Data model *)

(** [type VideoUser = { uid: string; name: string; peerId: string }] *)
Record VideoUser := mkVideoUser {
  uid : jsstring;
  name : jsstring;
  peerId : jsstring
}.

Inductive ErrorCode := BAD_REQUEST.

(** [type VideoJoinAck] *)
Inductive VideoJoinAck :=
| AckOk (peers : list VideoUser)
| AckFail (error : option ErrorCode).

(** Payload of [video:join]; the handler reads every field through
    [payload?.field], so the payload itself may be missing. *)
Record JoinPayload := mkJoinPayload {
  jp_roomId : Js.value;
  jp_uid : Js.value;
  jp_name : Js.value;
  jp_peerId : Js.value
}.

(** Payload of [video:leave]. *)
Record LeavePayload := mkLeavePayload {
  lp_roomId : Js.value;
  lp_uid : Js.value
}.

(** [payload?.field] *)
Definition opt_field {P : Type} (f : P -> Js.value) (payload : option P)
  : Js.value :=
  match payload with
  | Some p => f p
  | None => Js.Undefined
  end.

(** [const rooms = new Map<string, Map<string, VideoUser>>()] *)
Abbreviation Rooms := (JsMap.t (JsMap.t VideoUser)).

(** One socket: [socket.data.rid], [socket.data.uid] and the transport
    groups the socket was put in by [socket.join]. *)
Record Socket := mkSocket {
  data_rid : option jsstring;
  data_uid : option jsstring;
  groups : gset jsstring
}.

(** A socket right after [connection]. *)
Definition fresh_socket : Socket :=
  {| data_rid := None; data_uid := None; groups := ∅ |}.

(** What the server sends to room [rid] with [socket.to(rid).emit(...)]. *)
Inductive ServerEvent :=
| UserJoined (u : VideoUser)
| UserLeft (uid : jsstring).

(** What a handler sends. *)
Inductive Output :=
| Ack (res : VideoJoinAck)
| Emit (rid : jsstring) (ev : ServerEvent).

(** [ack?.(res)]: the callback is optional. *)
Definition call_ack (ack : bool) (res : VideoJoinAck) : list Output :=
  if ack then [Ack res] else [].

(** ** The handlers *)

(** [socket.on("video:join", (payload, ack?) => ...)] *)
Definition on_join (payload : option JoinPayload) (ack : bool)
    (rooms : Rooms) (socket : Socket) : Rooms * Socket * list Output :=
  let rid := normRoomId (opt_field jp_roomId payload) in
  let uid := Js.trim (Js.String_or_empty (opt_field jp_uid payload)) in
  let name :=
    Js.str_or (Js.trim (Js.String_or_empty (opt_field jp_name payload)))
      (lit "Guest") in
  let peerId := Js.trim (Js.String_or_empty (opt_field jp_peerId payload)) in
  if negb (Js.truthy_str rid) || negb (Js.truthy_str uid)
     || negb (Js.truthy_str peerId)
  then (rooms, socket, call_ack ack (AckFail (Some BAD_REQUEST)))
  else
    let map := default JsMap.empty (JsMap.get rid rooms) in
    let map := JsMap.set uid (mkVideoUser uid name peerId) map in
    let rooms := JsMap.set rid map rooms in
    let socket :=
      {| data_rid := Some rid; data_uid := Some uid;
         groups := {[ rid ]} ∪ groups socket |} in
    let peers := JsMap.values map in
    (rooms, socket,
     (call_ack ack (AckOk peers)
        ++ [Emit rid (UserJoined (mkVideoUser uid name peerId))])).

(** The part the two removal handlers share.  [map] is the room object
    stored under [rid]: [map.delete(uid)] changes it where it is stored, which
    is [set] on the present key [rid]; then [rooms.delete(rid)] when
    [map.size === 0]. *)
Definition remove_member (rid uid : jsstring) (map : JsMap.t VideoUser)
    (rooms : Rooms) : Rooms :=
  let map := JsMap.delete uid map in
  let rooms := JsMap.set rid map rooms in
  if Nat.eqb (JsMap.size map) 0 then JsMap.delete rid rooms else rooms.

(** [socket.on("video:leave", (payload) => ...)] *)
Definition on_leave (payload : option LeavePayload)
    (rooms : Rooms) (socket : Socket) : Rooms * Socket * list Output :=
  let rid := normRoomId (opt_field lp_roomId payload) in
  let uid := Js.trim (Js.String_or_empty (opt_field lp_uid payload)) in
  if negb (Js.truthy_str rid) || negb (Js.truthy_str uid)
  then (rooms, socket, [])
  else
    match JsMap.get rid rooms with
    | None => (rooms, socket, [])
    | Some map =>
        let rooms := remove_member rid uid map rooms in
        (rooms,
         {| data_rid := data_rid socket; data_uid := data_uid socket;
            groups := groups socket ∖ {[ rid ]} |},
         [Emit rid (UserLeft uid)])
    end.

(** [socket.on("disconnect", () => ...)].  [socket.data.rid] and
    [socket.data.uid] are [undefined] ([None]) or strings, and [!rid || !uid]
    holds when one of them is [undefined] or empty. *)
Definition on_disconnect (rooms : Rooms) (socket : Socket)
  : Rooms * Socket * list Output :=
  match data_rid socket, data_uid socket with
  | Some rid, Some uid =>
      if negb (Js.truthy_str rid) || negb (Js.truthy_str uid)
      then (rooms, socket, [])
      else
        match JsMap.get rid rooms with
        | None => (rooms, socket, [])
        | Some map =>
            (remove_member rid uid map rooms, socket,
             [Emit rid (UserLeft uid)])
        end
  | _, _ => (rooms, socket, [])
  end.

(** ** The server: the registry and the sockets *)

Record World := mkWorld {
  rooms : Rooms;
  sockets : gmap nat Socket
}.

(** Server start: no room; a socket that has not been seen yet is fresh. *)
Definition init : World := {| rooms := JsMap.empty; sockets := ∅ |}.

Definition socket_of (w : World) (sid : nat) : Socket :=
  default fresh_socket (sockets w !! sid).

(** What reaches the server: an event on the socket [sid].  Node runs each
    handler to completion, so the server sees a sequence of events.  What the
    transport itself does with a socket that closes is no part of the
    handlers and is not modelled. *)
Inductive Event :=
| EJoin (sid : nat) (payload : option JoinPayload) (ack : bool)
| ELeave (sid : nat) (payload : option LeavePayload)
| EDisconnect (sid : nat).

Definition event_socket (e : Event) : nat :=
  match e with
  | EJoin sid _ _ | ELeave sid _ | EDisconnect sid => sid
  end.

Definition handle (e : Event) (rs : Rooms) (s : Socket)
  : Rooms * Socket * list Output :=
  match e with
  | EJoin _ payload ack => on_join payload ack rs s
  | ELeave _ payload => on_leave payload rs s
  | EDisconnect _ => on_disconnect rs s
  end.

(** One event: the handler runs on the registry and the event's socket. *)
Definition step (w : World) (e : Event) : World * list (nat * Output) :=
  let sid := event_socket e in
  let '(rs, s, out) := handle e (rooms w) (socket_of w sid) in
  ({| rooms := rs; sockets := <[sid := s]> (sockets w) |},
   map (pair sid) out).

(** A sequence of events from a state, with everything sent on the way. *)
Fixpoint run (w : World) (evs : list Event) : World * list (nat * Output) :=
  match evs with
  | [] => (w, [])
  | e :: evs' =>
      let '(w1, out1) := step w e in
      let '(w2, out2) := run w1 evs' in
      (w2, (out1 ++ out2))
  end.

(** The state after a sequence of events from server start. *)
Definition state_after (evs : list Event) : World := fst (run init evs).

(** ** The notions the statements use *)

(** A member of a room: stored under its own [uid], with the non-empty
    fields the join handler asks for. *)
Definition user_ok (x : jsstring * VideoUser) : Prop :=
  uid x.2 = x.1 /\ x.1 <> [] /\ peerId x.2 <> [] /\ name x.2 <> [].

(** A room of the registry: not empty, unique keys, under a normalized and
    non-empty room id. *)
Definition room_ok (x : jsstring * JsMap.t VideoUser) : Prop :=
  x.2 <> [] /\ JsMap.wf x.2 /\ x.1 <> [] /\ normRoomId (Js.Str x.1) = x.1
  /\ Forall user_ok x.2.

(** The registry: unique room ids, every room as above. *)
Definition registry_ok (rs : Rooms) : Prop :=
  JsMap.wf rs /\ Forall room_ok rs.

(** What the join handler reads from its payload. *)
Definition join_rid (payload : option JoinPayload) : jsstring :=
  normRoomId (opt_field jp_roomId payload).
Definition join_uid (payload : option JoinPayload) : jsstring :=
  Js.trim (Js.String_or_empty (opt_field jp_uid payload)).
Definition join_name (payload : option JoinPayload) : jsstring :=
  Js.str_or (Js.trim (Js.String_or_empty (opt_field jp_name payload))) (lit "Guest").
Definition join_peerId (payload : option JoinPayload) : jsstring :=
  Js.trim (Js.String_or_empty (opt_field jp_peerId payload)).
Definition join_user (payload : option JoinPayload) : VideoUser :=
  mkVideoUser (join_uid payload) (join_name payload) (join_peerId payload).

(** A join payload passes the handler's check. *)
Definition valid_join (payload : option JoinPayload) : Prop :=
  join_rid payload <> [] /\ join_uid payload <> [] /\ join_peerId payload <> [].

(** What the leave handler reads from its payload. *)
Definition leave_rid (payload : option LeavePayload) : jsstring :=
  normRoomId (opt_field lp_roomId payload).
Definition leave_uid (payload : option LeavePayload) : jsstring :=
  Js.trim (Js.String_or_empty (opt_field lp_uid payload)).

(** A leave payload passes the handler's check. *)
Definition valid_leave (payload : option LeavePayload) : Prop :=
  leave_rid payload <> [] /\ leave_uid payload <> [].

(** The members of room [rid], none when the registry has no such key. *)
Definition room_members (rs : Rooms) (rid : jsstring) : list VideoUser :=
  match JsMap.get rid rs with
  | Some m => JsMap.values m
  | None => []
  end.

(** ** Scenarios *)

(** Records and payloads written with literals. *)
Definition user (u n p : string) : VideoUser :=
  mkVideoUser (lit u) (lit n) (lit p).
Definition join_of (r u n p : string) : option JoinPayload :=
  Some (mkJoinPayload (Js.Str (lit r)) (Js.Str (lit u)) (Js.Str (lit n))
          (Js.Str (lit p))).
Definition leave_of (r u : string) : option LeavePayload :=
  Some (mkLeavePayload (Js.Str (lit r)) (Js.Str (lit u))).

(** Socket 1 joins room [X1] as [u1]. *)
Definition ev_one_member : list Event :=
  [EJoin 1 (join_of "X1" "u1" "Ann" "p1") true].

(** A join whose uid is blank. *)
Definition blank_uid_join : option JoinPayload :=
  join_of "X1" "   " "Ann" "p1".

(** A join for the same room, written ["x1 "], with a blank name. *)
Definition blank_name_join : option JoinPayload :=
  join_of "x1 " "u2" "  " " p2".

(** Two joins of [u1] to room [X1], with different names and peer ids, the
    first into a room that holds [u0]. *)
Definition first_join : option JoinPayload :=
  join_of "x1" "u1" "Ann" "p1".
Definition repeat_join : option JoinPayload :=
  join_of " X1 " "u1" "Anna" "p9".
Definition rooms_after_first : Rooms :=
  (on_join first_join true
     [(lit "X1", [(lit "u0", user "u0" "Zed" "p0")])] fresh_socket).1.1.
Definition room_after_first : JsMap.t VideoUser :=
  [(lit "u0", user "u0" "Zed" "p0"); (lit "u1", user "u1" "Ann" "p1")].

(** A session is empty, or it is a pair of non-empty strings. *)
Definition session_ok (s : Socket) : Prop :=
  (data_rid s = None /\ data_uid s = None) \/
  (exists rid uid, data_rid s = Some rid /\ data_uid s = Some uid
                   /\ rid <> [] /\ uid <> []).

(** A join to another room under another uid. *)
Definition other_room_join : option JoinPayload :=
  join_of "y2" "u7" "Ann" "p7".

(** Socket 1 joins room [R] as [u1]; socket 2 sends the leave for
    [(R, u1)]. *)
Definition ev_pruned_by_other : list Event :=
  [EJoin 1 (join_of "r" "u1" "Ann" "p1") true;
   ELeave 2 (leave_of "r" "u1")].

Definition leave_r_u1 : option LeavePayload :=
  leave_of "r" "u1".

(** Sockets 1 and 2 join room [R] as [u1] and [u2]. *)
Definition ev_two_members : list Event :=
  [EJoin 1 (join_of "r" "u1" "Ann" "p1") true;
   EJoin 2 (join_of "R " "u2" "Bob" "p2") true].

(** ... then socket 1 leaves. *)
Definition ev_left_one : list Event :=
  [EJoin 1 (join_of "r" "u1" "Ann" "p1") true;
   EJoin 2 (join_of "r" "u2" "Bob" "p2") true;
   ELeave 1 (leave_of "r" "u1")].

(** [u1] joins room [R] again, from socket 3. *)
Definition rejoin_u1 : Event :=
  EJoin 3 (join_of "r" "u1" "Ann" "p3") true.

(** A and B in room [X1]: B joins under ["x1 "], B disconnects, A leaves. *)
Definition ev_two_sockets : list Event :=
  [EJoin 1 (Some (mkJoinPayload (Js.Str (lit "X1")) (Js.Str (lit "u1")) Js.Undefined
                    (Js.Str (lit "p1")))) true;
   EJoin 2 (join_of "x1 " "u2" "Bob" "p2") true;
   EDisconnect 2;
   ELeave 1 (leave_of "x1" "u1")].

(** ** Allowed origins

    [rawOrigins], [allowedOrigins] and [isAllowedOrigin], which the CORS
    callbacks of Express and of Socket.IO both call.  The environment
    variable [CLIENT_ORIGIN] is [None] when it is not set. *)

(** The code unit of the comma. *)
Definition comma : N := 44%N.

(** [s.split(sep)] for a separator of one code unit: the empty string
    splits into one empty piece. *)
Fixpoint split_on (sep : N) (s : jsstring) : list jsstring :=
  match s with
  | [] => [[]]
  | a :: s' =>
      if N.eqb a sep then [] :: split_on sep s'
      else
        match split_on sep s' with
        | h :: t => (a :: h) :: t
        | [] => [[a]]
        end
  end.

(** [arr.includes(x)] on an array of strings. *)
Definition includes (x : jsstring) (arr : list jsstring) : bool :=
  existsb (Js.eqb x) arr.

(** [s.startsWith(p)] *)
Fixpoint startsWith (p s : jsstring) : bool :=
  match p, s with
  | [], _ => true
  | a :: p', b :: s' => N.eqb a b && startsWith p' s'
  | _ :: _, [] => false
  end.

Definition default_origins : jsstring :=
  (lit "http://localhost:5173,http://127.0.0.1:5173").

(** [process.env.CLIENT_ORIGIN || "http://localhost:5173,..."] *)
Definition rawOrigins (env : option jsstring) : jsstring :=
  match env with
  | Some v => Js.str_or v default_origins
  | None => default_origins
  end.

(** [raw.split(",").map((s) => s.trim()).filter(Boolean)] *)
Definition parse_origins (raw : jsstring) : list jsstring :=
  List.filter Js.truthy_str (List.map Js.trim (split_on comma raw)).

Definition allowedOrigins (env : option jsstring) : list jsstring :=
  parse_origins (rawOrigins env).

(** [function isAllowedOrigin(origin?: string): boolean], over the list
    [allowedOrigins] it reads. *)
Definition isAllowedOrigin (allowed : list jsstring) (origin : option jsstring)
  : bool :=
  match origin with
  | None => true
  | Some o =>
      if negb (Js.truthy_str o) then true
      else if includes (lit "*") allowed then true
      else if includes o allowed then true
      else if startsWith (lit "http://localhost:") o then true
      else if startsWith (lit "http://127.0.0.1:") o then true
      else false
  end.

(** What the CORS callback passes to [cb]: [cb(null, true)] or
    [cb(new Error("Not allowed by CORS"))]. *)
Inductive CorsAnswer :=
| CorsOk
| CorsError (message : jsstring).

Definition cors_origin (allowed : list jsstring) (origin : option jsstring)
  : CorsAnswer :=
  if isAllowedOrigin allowed origin then CorsOk
  else CorsError (lit "Not allowed by CORS").

(** ** More notions for statements *)

(** The code unit [c] occurs in [s]. *)
Fixpoint contains (c : N) (s : jsstring) : bool :=
  match s with
  | [] => false
  | a :: s' => N.eqb a c || contains c s'
  end.



(** The strings of [l] with a comma between them. *)
Fixpoint comma_joined (l : list jsstring) : jsstring :=
  match l with
  | [] => []
  | [o] => o
  | o :: l' => o ++ comma :: comma_joined l'
  end.

(** An entry as [parse_origins] yields them. *)
Definition origin_entry (o : jsstring) : Prop :=
  o <> [] /\ Js.trim o = o /\ contains comma o = false.

(** The record of [uid] in room [rid], if the registry has one. *)
Definition member (rs : Rooms) (rid uid : jsstring) : option VideoUser :=
  match JsMap.get rid rs with
  | Some m => JsMap.get uid m
  | None => None
  end.

(** A normalized, non-empty room id. *)
Definition room_id (rid : jsstring) : Prop :=
  rid <> [] /\ normRoomId (Js.Str rid) = rid.

(** The session and the transport groups of a socket name rooms by
    normalized ids, and a bound uid is trimmed and not empty. *)
Definition socket_norm (s : Socket) : Prop :=
  (forall rid, data_rid s = Some rid -> room_id rid) /\
  (forall uid, data_uid s = Some uid -> uid <> [] /\ Js.trim uid = uid) /\
  (forall g, g ∈ groups s -> room_id g).

(** What a broadcast of a handler carries. *)
Definition emit_ok (o : Output) : Prop :=
  match o with
  | Ack _ => True
  | Emit rid (UserJoined u) => room_id rid /\ uid u <> [] /\ peerId u <> []
  | Emit rid (UserLeft u) => room_id rid /\ u <> []
  end.

(** Socket 1 joins with padded fields: the room id is U+00A0, [caf],
    U+00E9 and a space; the uid and the peer id have U+00A0 and U+3000
    around them; the name is U+FEFF alone. *)
Definition padded_join : option JoinPayload :=
  Some (mkJoinPayload (Js.Str ([160%N] ++ lit "caf" ++ [233; 32]%N))
          (Js.Str ([160%N] ++ lit "u1" ++ [12288%N]))
          (Js.Str [65279%N])
          (Js.Str ([32%N] ++ lit "p1" ++ [160%N]))).
Definition ev_padded : list Event := [EJoin 1 padded_join true].

(** The room id the padded join is stored under: [CAF] and U+00C9. *)
Definition cafe_id : jsstring := lit "CAF" ++ [201%N].


(** A leave with a blank uid. *)
Definition blank_uid_leave : option LeavePayload :=
  leave_of "X1" " ".

(** [u2] joins room [X1]. *)
Definition join_x1_u2 : option JoinPayload :=
  join_of " x1" "u2 " "Bob" "p2".

(** ** Notions about strings *)

(** [s] starts with a low surrogate. *)
Definition low_head (s : jsstring) : bool :=
  match s with
  | l :: _ => Js.is_low l
  | [] => false
  end.

(** Neither white space nor a surrogate. *)
Definition unit_plain (u : N) : bool :=
  negb (Js.is_ws u) && negb (Js.is_high u) && negb (Js.is_low u).

(** What the proofs use of an entry of [Js.upper_bmp]: its key is plain,
    and its value is not empty and made of plain code units that have no
    entry themselves. *)
Definition bmp_entry_ok (e : N * list N) : bool :=
  unit_plain e.1 && Js.truthy_str e.2
  && forallb (fun x => unit_plain x
                       && bool_decide (Js.assoc N.eqb x Js.upper_bmp = None))
       e.2.

(** What the proofs use of an entry of [Js.upper_astral]: its value is a
    surrogate pair that has no entry itself. *)
Definition astral_entry_ok (e : N * N * (N * N)) : bool :=
  Js.is_high e.2.1 && Js.is_low e.2.2
  && bool_decide (Js.assoc Js.pair_eqb e.2 Js.upper_astral = None).

(** No white space at either end. *)
Definition no_ws_ends (s : jsstring) : Prop :=
  (forall u, head s = Some u -> Js.is_ws u = false) /\
  (forall u, last s = Some u -> Js.is_ws u = false).

(** No code unit of [s] is changed by upper-casing it; in particular none is
    a letter from [a] to [z]. *)
Definition no_lower (s : jsstring) : Prop :=
  Forall (fun u => Js.upper_unit u = [u] /\ ~ (97 <= u <= 122)%N) s.

Arguments Js.assoc : simpl never.
Arguments Js.upper_unit : simpl never.
Arguments Js.upper_pair : simpl never.

(** ** Strings: trimming and upper case *)


Example normRoomId_ex1 : normRoomId (Js.Str (lit "  abc ")) = lit "ABC".
Proof. vm_compute. reflexivity. Qed.

Example normRoomId_ex2 : normRoomId Js.Undefined = [].
Proof. reflexivity. Qed.

Example trim_inner : Js.trim (9%N :: lit " a b  ") = lit "a b".
Proof. vm_compute. reflexivity. Qed.

(** U+00A0 and U+FEFF are stripped; U+00E9 and U+00DF have the upper cases
    U+00C9 and [SS]; U+10428, the surrogate pair D801 DC28, has the upper
    case U+10400, the pair D801 DC00; a high surrogate alone stays. *)
Example normRoomId_unicode :
  normRoomId (Js.Str [160; 99; 97; 102; 233; 65279]%N) = [67; 65; 70; 201]%N
  /\ normRoomId (Js.Str [223; 55297; 56360; 55297]%N)
     = [83; 83; 55297; 56320; 55297]%N.
Proof. split; vm_compute; reflexivity. Qed.

Example run_two_sockets :
  rooms (run init ev_two_sockets).1 = [] /\
  (run init ev_two_sockets).2 =
    [(1, Ack (AckOk [user "u1" "Guest" "p1"]));
     (1, Emit (lit "X1") (UserJoined (user "u1" "Guest" "p1")));
     (2, Ack (AckOk [user "u1" "Guest" "p1";
                     user "u2" "Bob" "p2"]));
     (2, Emit (lit "X1") (UserJoined (user "u2" "Bob" "p2")));
     (2, Emit (lit "X1") (UserLeft (lit "u2")));
     (1, Emit (lit "X1") (UserLeft (lit "u1")))].
Proof. split; reflexivity. Qed.


Section StringFacts.

Lemma str_eqb_spec (s t : jsstring) : reflect (s = t) (Js.eqb s t).
Proof. apply bool_decide_reflect. Qed.

Lemma str_eqb_refl (s : jsstring) : Js.eqb s s = true.
Proof. by apply bool_decide_eq_true. Qed.

Lemma str_eqb_eq (s t : jsstring) : Js.eqb s t = true <-> s = t.
Proof. apply bool_decide_eq_true. Qed.

Lemma truthy_str_nonempty (s : jsstring) : Js.truthy_str s = true <-> s <> [].
Proof. destruct s; simpl; split; congruence. Qed.

(** *** White space and surrogates *)

Lemma is_high_not_low (u : N) : Js.is_high u = true -> Js.is_low u = false.
Proof.
  unfold Js.is_high, Js.is_low.
  rewrite andb_true_iff, andb_false_iff, !N.leb_le, !N.leb_gt. lia.
Qed.

Lemma is_ws_not_surrogate (u : N) :
  Js.is_ws u = true -> Js.is_high u = false /\ Js.is_low u = false.
Proof.
  unfold Js.is_ws, Js.is_high, Js.is_low.
  rewrite !orb_true_iff, !andb_true_iff, !andb_false_iff, !N.leb_le,
    !N.leb_gt, !N.eqb_eq.
  lia.
Qed.

Lemma unit_plain_spec (u : N) :
  unit_plain u = true <->
  Js.is_ws u = false /\ Js.is_high u = false /\ Js.is_low u = false.
Proof.
  unfold unit_plain. rewrite !andb_true_iff, !negb_true_iff. tauto.
Qed.

(** *** The tables *)

Lemma assoc_elem {K V : Type} (eq : K -> K -> bool) (k : K)
    (l : list (K * V)) (v : V) :
  (forall a b, eq a b = true -> a = b) ->
  Js.assoc eq k l = Some v -> (k, v) ∈ l.
Proof.
  intros Heq. induction l as [|[k' v'] l IH]; [done|].
  change (Js.assoc eq k ((k', v') :: l))
    with (if eq k k' then Some v' else Js.assoc eq k l).
  destruct (eq k k') eqn:E.
  - intros [= ->]. apply Heq in E as ->. apply list_elem_of_here.
  - intros H. apply list_elem_of_further. auto.
Qed.

Lemma pair_eqb_eq (a b : N * N) : Js.pair_eqb a b = true -> a = b.
Proof.
  destruct a, b. unfold Js.pair_eqb; simpl.
  rewrite andb_true_iff, !N.eqb_eq. by intros [-> ->].
Qed.

Lemma upper_bmp_ok : forallb bmp_entry_ok Js.upper_bmp = true.
Proof. vm_compute. reflexivity. Qed.

Lemma upper_astral_ok : forallb astral_entry_ok Js.upper_astral = true.
Proof. vm_compute. reflexivity. Qed.

(** A code unit is its own upper case, or the table gives it a value of
    plain code units that are their own upper case. *)
Lemma upper_unit_cases (u : N) :
  (Js.upper_unit u = [u] /\ Js.assoc N.eqb u Js.upper_bmp = None) \/
  (unit_plain u = true /\ Js.upper_unit u <> [] /\
   Forall (fun x => unit_plain x = true /\ Js.upper_unit x = [x])
     (Js.upper_unit u)).
Proof.
  destruct (Js.assoc N.eqb u Js.upper_bmp) as [v|] eqn:E.
  2:{ left. unfold Js.upper_unit. by rewrite E. }
  right.
  assert (Huv : Js.upper_unit u = v) by (unfold Js.upper_unit; by rewrite E).
  rewrite Huv. clear Huv.
  apply assoc_elem in E; [|by intros a b ->%N.eqb_eq].
  pose proof upper_bmp_ok as Hok.
  rewrite forallb_forall in Hok.
  apply list_elem_of_In, Hok in E. unfold bmp_entry_ok in E.
  cbn [fst snd] in E.
  apply andb_prop in E as [[Hu Hv]%andb_prop Hall].
  split_and!; [done|by apply truthy_str_nonempty|].
  apply Forall_forall. intros x Hx.
  rewrite forallb_forall in Hall.
  apply list_elem_of_In, Hall in Hx.
  apply andb_prop in Hx as [Hp Hn]. apply bool_decide_eq_true in Hn.
  split; [done|]. unfold Js.upper_unit. by rewrite Hn.
Qed.

Lemma upper_unit_not_nil (u : N) : Js.upper_unit u <> [].
Proof. by destruct (upper_unit_cases u) as [[-> _]|(_ & ? & _)]. Qed.

Lemma upper_unit_not_plain (u : N) :
  unit_plain u = false -> Js.upper_unit u = [u].
Proof.
  intros Hu. destruct (upper_unit_cases u) as [[? _]|(Hp & _)]; [done|].
  congruence.
Qed.

Lemma upper_unit_ws (u : N) : Js.is_ws u = true -> Js.upper_unit u = [u].
Proof.
  intros Hu. apply upper_unit_not_plain. unfold unit_plain. by rewrite Hu.
Qed.

Lemma upper_unit_high (u : N) : Js.is_high u = true -> Js.upper_unit u = [u].
Proof.
  intros Hu. apply upper_unit_not_plain. unfold unit_plain. rewrite Hu.
  by destruct (Js.is_ws u).
Qed.

Lemma upper_unit_low (u : N) : Js.is_low u = true -> Js.upper_unit u = [u].
Proof.
  intros Hu. apply upper_unit_not_plain. unfold unit_plain. rewrite Hu.
  by destruct (Js.is_ws u), (Js.is_high u).
Qed.

(** Every code unit of an upper case is its own upper case, and is the
    code unit that was mapped or a plain one. *)
Lemma upper_unit_elem (u x : N) :
  x ∈ Js.upper_unit u ->
  Js.upper_unit x = [x] /\ (x = u \/ unit_plain x = true).
Proof.
  destruct (upper_unit_cases u) as [[Hu _]|(_ & _ & Hall)].
  - rewrite Hu. intros ->%list_elem_of_singleton. split; [done|by left].
  - intros Hx. eapply Forall_forall in Hall; [|exact Hx].
    destruct Hall. split; [done|by right].
Qed.

Lemma upper_unit_elem_ws (u x : N) :
  x ∈ Js.upper_unit u -> Js.is_ws u = false -> Js.is_ws x = false.
Proof.
  intros Hx Hu. destruct (upper_unit_elem u x Hx) as [_ [->|Hp]]; [done|].
  by apply unit_plain_spec in Hp as (? & _).
Qed.

Lemma upper_unit_elem_low (u x : N) :
  x ∈ Js.upper_unit u -> Js.is_low x = true -> x = u.
Proof.
  intros Hx Hl. destruct (upper_unit_elem u x Hx) as [_ [->|Hp]]; [done|].
  apply unit_plain_spec in Hp as (_ & _ & ?). congruence.
Qed.

(** The upper case of a surrogate pair is a surrogate pair that is its own
    upper case. *)
Lemma upper_pair_cases (h l : N) :
  Js.is_high h = true -> Js.is_low l = true ->
  exists h' l',
    Js.upper_pair h l = [h'; l'] /\ Js.is_high h' = true /\
    Js.is_low l' = true /\ Js.upper_pair h' l' = [h'; l'].
Proof.
  intros Hh Hl. unfold Js.upper_pair at 1.
  destruct (Js.assoc Js.pair_eqb (h, l) Js.upper_astral) as [[h' l']|] eqn:E.
  - apply assoc_elem in E; [|apply pair_eqb_eq].
    pose proof upper_astral_ok as Hok. rewrite forallb_forall in Hok.
    apply list_elem_of_In, Hok in E. unfold astral_entry_ok in E.
    cbn [fst snd] in E.
    apply andb_prop in E as [[Hh' Hl']%andb_prop Hn].
    apply bool_decide_eq_true in Hn.
    exists h', l'. split_and!; try done.
    unfold Js.upper_pair. by rewrite Hn.
  - exists h, l. split_and!; try done. unfold Js.upper_pair. by rewrite E.
Qed.

(** *** [toUpperCase], code point by code point *)

Lemma toUpperCase_paired (h l : N) (s : jsstring) :
  Js.is_high h = true -> Js.is_low l = true ->
  Js.toUpperCase (h :: l :: s) = Js.upper_pair h l ++ Js.toUpperCase s.
Proof. intros Hh Hl. simpl. by rewrite Hh, Hl. Qed.

Lemma toUpperCase_single (h : N) (s : jsstring) :
  Js.is_high h && low_head s = false ->
  Js.toUpperCase (h :: s) = Js.upper_unit h ++ Js.toUpperCase s.
Proof.
  intros Hp. destruct s as [|l s]; simpl in *; [by rewrite app_nil_r|].
  by rewrite Hp.
Qed.

Lemma pair_ind (P : jsstring -> Prop) :
  P [] -> (forall h, P [h]) ->
  (forall h l s, P s -> P (l :: s) -> P (h :: l :: s)) ->
  forall s, P s.
Proof.
  intros Hnil Hone Hstep s.
  assert (H : P s /\ forall h, P (h :: s)); [|by destruct H].
  induction s as [|l s [IH1 IH2]]; [by split|].
  split; [apply IH2|]. intros h. by apply Hstep.
Qed.

Lemma toUpperCase_nil_iff (s : jsstring) : Js.toUpperCase s = [] <-> s = [].
Proof.
  split; [|by intros ->].
  destruct s as [|h [|l s]]; [done| |]; simpl.
  - intros H. by apply upper_unit_not_nil in H.
  - destruct (Js.is_high h && Js.is_low l) eqn:E.
    + apply andb_prop in E as [Hh Hl].
      destruct (upper_pair_cases h l Hh Hl) as (h' & l' & -> & _). done.
    + intros [H _]%app_eq_nil. by apply upper_unit_not_nil in H.
Qed.

Lemma truthy_toUpperCase (s : jsstring) :
  Js.truthy_str (Js.toUpperCase s) = Js.truthy_str s.
Proof.
  destruct s as [|h s]; [done|].
  destruct (Js.toUpperCase (h :: s)) eqn:E; [|done].
  apply (proj1 (toUpperCase_nil_iff _)) in E. discriminate E.
Qed.

(** The first code unit of an upper case: white space or a low surrogate
    only if the string started with that. *)
Lemma toUpperCase_head (h : N) (s : jsstring) :
  exists y r,
    Js.toUpperCase (h :: s) = y :: r /\
    (Js.is_ws h = false -> Js.is_ws y = false) /\
    Js.is_low y = Js.is_low h.
Proof.
  destruct (Js.is_high h && low_head s) eqn:E.
  - destruct s as [|l s]; [by rewrite andb_false_r in E|].
    apply andb_prop in E as [Hh Hl]. simpl in Hl.
    rewrite toUpperCase_paired by done.
    destruct (upper_pair_cases h l Hh Hl) as (h' & l' & -> & Hh' & _).
    exists h', (l' :: Js.toUpperCase s). split_and!; [done| |].
    + intros _. destruct (Js.is_ws h') eqn:W; [|done].
      apply is_ws_not_surrogate in W as [? _]. congruence.
    + by rewrite !is_high_not_low.
  - rewrite toUpperCase_single by done.
    destruct (Js.upper_unit h) as [|y r] eqn:U;
      [by apply upper_unit_not_nil in U|].
    assert (Hy : y ∈ Js.upper_unit h) by (rewrite U; apply list_elem_of_here).
    exists y, (r ++ Js.toUpperCase s). split_and!; [done| |].
    + by apply upper_unit_elem_ws.
    + destruct (upper_unit_elem h y Hy) as [_ [->|Hp]]; [done|].
      apply unit_plain_spec in Hp as (_ & _ & Hyl). rewrite Hyl.
      destruct (Js.is_low h) eqn:Hl; [|done].
      pose proof (upper_unit_low h Hl) as Hfix. rewrite Hfix in U.
      injection U as Hhy _. subst y. congruence.
Qed.

Lemma low_head_toUpperCase (s : jsstring) :
  low_head (Js.toUpperCase s) = low_head s.
Proof.
  destruct s as [|h s]; [done|].
  by destruct (toUpperCase_head h s) as (y & r & -> & _ & ?).
Qed.

(** Code units that are their own upper case and no high surrogates pass
    through. *)
Lemma toUpperCase_app_fixed (b s : jsstring) :
  Forall (fun u => Js.is_high u = false /\ Js.upper_unit u = [u]) b ->
  Js.toUpperCase (b ++ s) = b ++ Js.toUpperCase s.
Proof.
  induction 1 as [|u b [Hh Hu] _ IH]; [done|].
  change ((u :: b) ++ s) with (u :: (b ++ s)).
  rewrite toUpperCase_single by (by rewrite Hh).
  by rewrite Hu, IH.
Qed.

(** The upper case of a code unit passes through, with what follows it. *)
Lemma toUpperCase_upper_unit (h : N) (s : jsstring) :
  Js.is_high h && low_head s = false ->
  Js.toUpperCase (Js.upper_unit h ++ s) = Js.upper_unit h ++ Js.toUpperCase s.
Proof.
  intros Hp.
  destruct (upper_unit_cases h) as [[Hu _]|(_ & _ & Hall)].
  - rewrite Hu. change ([h] ++ s) with (h :: s).
    rewrite toUpperCase_single by done. by rewrite Hu.
  - apply toUpperCase_app_fixed.
    eapply Forall_impl; [exact Hall|]. intros x [Hx ?]. simpl.
    by apply unit_plain_spec in Hx as (_ & ? & _).
Qed.

Lemma toUpperCase_idem (s : jsstring) :
  Js.toUpperCase (Js.toUpperCase s) = Js.toUpperCase s.
Proof.
  induction s as [|h|h l s IH1 IH2] using pair_ind.
  - done.
  - change (Js.toUpperCase [h]) with (Js.upper_unit h).
    rewrite <- (app_nil_r (Js.upper_unit h)) at 1.
    rewrite toUpperCase_upper_unit by (by rewrite andb_false_r).
    apply app_nil_r.
  - destruct (Js.is_high h && Js.is_low l) eqn:E.
    + apply andb_prop in E as [Hh Hl].
      rewrite toUpperCase_paired by done.
      destruct (upper_pair_cases h l Hh Hl)
        as (h' & l' & -> & Hh' & Hl' & Hfix).
      change ([h'; l'] ++ ?x) with (h' :: l' :: x).
      rewrite toUpperCase_paired by done. by rewrite Hfix, IH1.
    + rewrite toUpperCase_single by done.
      rewrite toUpperCase_upper_unit; [by rewrite IH2|].
      by rewrite low_head_toUpperCase.
Qed.

(** *** [trim] *)

Lemma trimStart_idem (s : jsstring) :
  Js.trimStart (Js.trimStart s) = Js.trimStart s.
Proof.
  induction s as [|a s IH]; simpl; [reflexivity|].
  destruct (Js.is_ws a) eqn:E; [exact IH|]. simpl. by rewrite E.
Qed.

Lemma trimEnd_cons_nonws (a : N) (s : jsstring) :
  Js.is_ws a = false -> Js.trimEnd (a :: s) = a :: Js.trimEnd s.
Proof. intros Ha. simpl. rewrite Ha. by destruct (Js.trimEnd s). Qed.

Lemma trimEnd_cons_ws (a : N) (s : jsstring) :
  Js.is_ws a = true ->
  Js.trimEnd (a :: s) =
    if Js.truthy_str (Js.trimEnd s) then a :: Js.trimEnd s else [].
Proof. intros Ha. simpl. rewrite Ha. by destruct (Js.trimEnd s). Qed.

Lemma trimEnd_app_nonws (b s : jsstring) :
  Forall (fun u => Js.is_ws u = false) b ->
  Js.trimEnd (b ++ s) = b ++ Js.trimEnd s.
Proof.
  induction 1 as [|u b Hu _ IH]; [done|].
  change ((u :: b) ++ s) with (u :: (b ++ s)).
  rewrite trimEnd_cons_nonws by done. by rewrite IH.
Qed.

Lemma trimEnd_idem (s : jsstring) : Js.trimEnd (Js.trimEnd s) = Js.trimEnd s.
Proof.
  induction s as [|a s IH]; [reflexivity|].
  destruct (Js.is_ws a) eqn:Ea.
  - rewrite trimEnd_cons_ws by done.
    destruct (Js.trimEnd s) as [|b r] eqn:E; simpl Js.truthy_str; cbv iota;
      [reflexivity|].
    rewrite trimEnd_cons_ws by done. rewrite IH. reflexivity.
  - rewrite !trimEnd_cons_nonws by done. by rewrite IH.
Qed.

Lemma trimStart_trimEnd (s : jsstring) :
  Js.trimStart (Js.trimEnd s) = Js.trimEnd (Js.trimStart s).
Proof.
  induction s as [|a s IH]; [reflexivity|].
  destruct (Js.is_ws a) eqn:Ea.
  - rewrite trimEnd_cons_ws by done. simpl Js.trimStart at 2. rewrite Ea.
    rewrite <- IH.
    destruct (Js.trimEnd s) as [|b r]; simpl; [reflexivity|]. by rewrite Ea.
  - rewrite trimEnd_cons_nonws by done. simpl. rewrite Ea.
    by rewrite trimEnd_cons_nonws.
Qed.

Lemma trim_idem (s : jsstring) : Js.trim (Js.trim s) = Js.trim s.
Proof.
  unfold Js.trim.
  by rewrite trimStart_trimEnd, trimStart_idem, trimEnd_idem.
Qed.

Lemma trimEnd_head (s : jsstring) (y : N) (r : jsstring) :
  Js.trimEnd s = y :: r -> exists r0, s = y :: r0.
Proof.
  destruct s as [|a s]; [done|]. simpl.
  destruct (Js.trimEnd s); [destruct (Js.is_ws a)|];
    intros [= <- _]; by eexists.
Qed.

Lemma low_head_trimEnd (s : jsstring) :
  low_head (Js.trimEnd s) = true -> low_head s = true.
Proof.
  destruct (Js.trimEnd s) as [|y r] eqn:E; [done|].
  by destruct (trimEnd_head s y r E) as [r0 ->].
Qed.

Lemma trimStart_no_ws (s : jsstring) (u : N) :
  head (Js.trimStart s) = Some u -> Js.is_ws u = false.
Proof.
  induction s as [|a s IH]; simpl; [done|].
  destruct (Js.is_ws a) eqn:E; [done|]. simpl. by intros [= <-].
Qed.

Lemma trimEnd_no_ws (s : jsstring) (u : N) :
  last (Js.trimEnd s) = Some u -> Js.is_ws u = false.
Proof.
  induction s as [|a s IH]; simpl; [done|].
  destruct (Js.trimEnd s) as [|b r].
  - destruct (Js.is_ws a) eqn:E; simpl; [done|]. by intros [= <-].
  - by rewrite last_cons_cons.
Qed.

Lemma no_ws_ends_trim (s : jsstring) : no_ws_ends (Js.trim s).
Proof.
  unfold Js.trim. split; [|apply trimEnd_no_ws].
  intros u Hu. apply (trimStart_no_ws s).
  destruct (Js.trimEnd (Js.trimStart s)) as [|y r] eqn:E; [done|].
  destruct (trimEnd_head _ _ _ E) as [r0 ->]. simpl in *. congruence.
Qed.

(** *** [trim] and [toUpperCase] commute *)

Lemma trimStart_toUpperCase (s : jsstring) :
  Js.trimStart (Js.toUpperCase s) = Js.toUpperCase (Js.trimStart s).
Proof.
  induction s as [|a s IH]; [reflexivity|].
  destruct (Js.is_ws a) eqn:E.
  - destruct (is_ws_not_surrogate a E) as [Hh _].
    rewrite toUpperCase_single by (by rewrite Hh).
    rewrite upper_unit_ws by done. simpl. by rewrite E.
  - simpl Js.trimStart at 2. rewrite E.
    destruct (toUpperCase_head a s) as (y & r & -> & Hy & _).
    simpl. by rewrite Hy.
Qed.

Lemma trimEnd_toUpperCase (s : jsstring) :
  Js.trimEnd (Js.toUpperCase s) = Js.toUpperCase (Js.trimEnd s).
Proof.
  induction s as [|h|h l s IH1 IH2] using pair_ind.
  - done.
  - change (Js.toUpperCase [h]) with (Js.upper_unit h).
    destruct (Js.is_ws h) eqn:E.
    + rewrite upper_unit_ws by done. simpl. by rewrite E.
    + rewrite <- (app_nil_r (Js.upper_unit h)) at 1.
      rewrite trimEnd_app_nonws.
      * rewrite app_nil_r. simpl. by rewrite E.
      * apply Forall_forall. intros x Hx. by eapply upper_unit_elem_ws.
  - destruct (Js.is_high h && Js.is_low l) eqn:P.
    + apply andb_prop in P as [Hh Hl].
      assert (Js.is_ws h = false /\ Js.is_ws l = false) as [Wh Wl].
      { split; [destruct (Js.is_ws h) eqn:W|destruct (Js.is_ws l) eqn:W];
          try done; apply is_ws_not_surrogate in W as [? ?]; congruence. }
      rewrite !trimEnd_cons_nonws by done.
      rewrite !toUpperCase_paired by done.
      destruct (upper_pair_cases h l Hh Hl) as (h' & l' & -> & Hh' & Hl' & _).
      rewrite trimEnd_app_nonws; [by rewrite IH1|].
      repeat (apply Forall_cons; split); [| |apply Forall_nil_2].
      * destruct (Js.is_ws h') eqn:W; [|done].
        apply is_ws_not_surrogate in W as [? ?]; congruence.
      * destruct (Js.is_ws l') eqn:W; [|done].
        apply is_ws_not_surrogate in W as [? ?]; congruence.
    + rewrite toUpperCase_single by done.
      destruct (Js.is_ws h) eqn:E.
      * rewrite upper_unit_ws by done.
        change ([h] ++ ?x) with (h :: x).
        rewrite !trimEnd_cons_ws by done. rewrite IH2.
        rewrite truthy_toUpperCase.
        destruct (Js.trimEnd (l :: s)) as [|y r] eqn:T; [done|].
        simpl Js.truthy_str. cbv iota.
        destruct (is_ws_not_surrogate h E) as [Hh _].
        rewrite (toUpperCase_single h) by (by rewrite Hh).
        by rewrite upper_unit_ws.
      * rewrite trimEnd_cons_nonws by done.
        rewrite trimEnd_app_nonws, IH2.
        -- rewrite (toUpperCase_single h); [done|].
           destruct (Js.is_high h); [|done]. simpl in *.
           destruct (low_head (Js.trimEnd (l :: s))) eqn:L; [|done].
           apply low_head_trimEnd in L. simpl in L. congruence.
        -- apply Forall_forall. intros x Hx. by eapply upper_unit_elem_ws.
Qed.

Lemma trim_toUpperCase (s : jsstring) :
  Js.trim (Js.toUpperCase s) = Js.toUpperCase (Js.trim s).
Proof.
  unfold Js.trim. by rewrite trimStart_toUpperCase, trimEnd_toUpperCase.
Qed.

(** *** [normRoomId] *)

Lemma String_or_empty_Str (s : jsstring) : Js.String_or_empty (Js.Str s) = s.
Proof. reflexivity. Qed.

Lemma normRoomId_Str_fixed (v : Js.value) :
  normRoomId (Js.Str (normRoomId v)) = normRoomId v.
Proof.
  unfold normRoomId. rewrite String_or_empty_Str.
  by rewrite trim_toUpperCase, trim_idem, toUpperCase_idem.
Qed.

Lemma trim_normRoomId (v : Js.value) :
  Js.trim (normRoomId v) = normRoomId v.
Proof. unfold normRoomId. by rewrite trim_toUpperCase, trim_idem. Qed.

Lemma toUpperCase_normRoomId (v : Js.value) :
  Js.toUpperCase (normRoomId v) = normRoomId v.
Proof. unfold normRoomId. by rewrite toUpperCase_idem. Qed.

Lemma no_ws_ends_normRoomId (v : Js.value) : no_ws_ends (normRoomId v).
Proof.
  unfold normRoomId. rewrite <- trim_toUpperCase. apply no_ws_ends_trim.
Qed.

(** The letters [a] to [z] have an upper case of their own. *)
Lemma upper_unit_a_z (u : N) :
  (97 <= u <= 122)%N -> Js.upper_unit u <> [u].
Proof.
  intros Hu.
  assert (H : u ∈ (N.of_nat <$> seq 97 26)).
  { apply list_elem_of_fmap. exists (N.to_nat u).
    split; [lia|]. apply list_elem_of_In, in_seq. lia. }
  revert H. generalize u. apply Forall_forall.
  repeat (apply Forall_cons; split; [by vm_compute|]). apply Forall_nil_2.
Qed.

(** No code unit of an upper case is changed by upper-casing it. *)
Lemma no_lower_toUpperCase (s : jsstring) : no_lower (Js.toUpperCase s).
Proof.
  assert (Hfix : Forall (fun u => Js.upper_unit u = [u]) (Js.toUpperCase s)).
  { induction s as [|h|h l s IH1 IH2] using pair_ind.
    - apply Forall_nil_2.
    - apply Forall_forall. intros x Hx. by apply (upper_unit_elem h).
    - destruct (Js.is_high h && Js.is_low l) eqn:P.
      + apply andb_prop in P as [Hh Hl].
        rewrite toUpperCase_paired by done.
        destruct (upper_pair_cases h l Hh Hl)
          as (h' & l' & -> & Hh' & Hl' & _).
        apply Forall_app. split; [|done].
        repeat (apply Forall_cons; split); [| |apply Forall_nil_2].
        * by apply upper_unit_high.
        * by apply upper_unit_low.
      + rewrite toUpperCase_single by done.
        apply Forall_app. split; [|done].
        apply Forall_forall. intros x Hx. by apply (upper_unit_elem h). }
  eapply Forall_impl; [exact Hfix|]. intros u Hu. simpl.
  split; [done|]. intros Hr. by apply upper_unit_a_z in Hr.
Qed.

Lemma no_lower_normRoomId (v : Js.value) : no_lower (normRoomId v).
Proof. apply no_lower_toUpperCase. Qed.

End StringFacts.


(** ** Facts about the [Map] model *)

Section JsMapFacts.
Context {V : Type}.
Implicit Types (m : JsMap.t V) (k : jsstring) (v : V).

Lemma get_set_eq k v m : JsMap.get k (JsMap.set k v m) = Some v.
Proof.
  induction m as [|[k' v'] m IH]; simpl.
  - by rewrite str_eqb_refl.
  - destruct (str_eqb_spec k k') as [->|Hne]; simpl.
    + by rewrite str_eqb_refl.
    + destruct (str_eqb_spec k k'); [done|exact IH].
Qed.

Lemma get_set_ne k k' v m :
  k <> k' -> JsMap.get k' (JsMap.set k v m) = JsMap.get k' m.
Proof.
  intros Hne. induction m as [|[k1 v1] m IH]; simpl.
  - destruct (str_eqb_spec k' k); [congruence|done].
  - destruct (str_eqb_spec k k1) as [->|Hk]; simpl.
    + destruct (str_eqb_spec k' k1); [congruence|done].
    + by rewrite IH.
Qed.

Lemma get_None_keys k m : JsMap.get k m = None <-> k ∉ JsMap.keys m.
Proof.
  induction m as [|[k' v'] m IH]; simpl.
  - split; [intros _; apply not_elem_of_nil|done].
  - rewrite not_elem_of_cons.
    destruct (str_eqb_spec k k') as [->|Hne]; [split; [done|tauto]|].
    rewrite IH. tauto.
Qed.

Lemma get_Some_elem k v m : JsMap.get k m = Some v -> (k, v) ∈ m.
Proof.
  induction m as [|[k' v'] m IH]; simpl; [done|].
  destruct (str_eqb_spec k k') as [->|Hne].
  - intros [= ->]. apply elem_of_cons; by left.
  - intros H. apply elem_of_cons; right; auto.
Qed.

Lemma elem_get_Some k v m : JsMap.wf m -> (k, v) ∈ m -> JsMap.get k m = Some v.
Proof.
  unfold JsMap.wf.
  induction m as [|[k' v'] m IH]; simpl; intros Hnd Hin.
  - by apply elem_of_nil in Hin.
  - apply NoDup_cons in Hnd as [Hk' Hnd].
    apply elem_of_cons in Hin as [[= -> ->]|Hin].
    + by rewrite str_eqb_refl.
    + destruct (str_eqb_spec k k') as [->|Hne]; [|auto].
      exfalso. apply Hk'. apply list_elem_of_fmap. by exists (k', v).
Qed.

Lemma keys_set_present k v m :
  is_Some (JsMap.get k m) -> JsMap.keys (JsMap.set k v m) = JsMap.keys m.
Proof.
  induction m as [|[k' v'] m IH]; simpl; intros [x Hx]; [done|].
  destruct (str_eqb_spec k k') as [->|Hne]; simpl; [done|].
  f_equal. apply IH. by exists x.
Qed.

Lemma keys_set_absent k v m :
  JsMap.get k m = None -> JsMap.keys (JsMap.set k v m) = (JsMap.keys m ++ [k]).
Proof.
  induction m as [|[k' v'] m IH]; simpl; intros Hx; [done|].
  destruct (str_eqb_spec k k') as [->|Hne]; simpl; [done|].
  f_equal. by apply IH.
Qed.

Lemma size_set_present k v m :
  is_Some (JsMap.get k m) -> JsMap.size (JsMap.set k v m) = JsMap.size m.
Proof.
  intros H. unfold JsMap.size.
  rewrite <- (length_fmap fst (JsMap.set k v m)), <- (length_fmap fst m).
  change (fmap fst ?x) with (JsMap.keys x).
  by rewrite keys_set_present.
Qed.

Lemma set_not_nil k v m : JsMap.set k v m <> [].
Proof.
  destruct m as [|[k' v'] m]; simpl; [done|].
  by destruct (Js.eqb k k').
Qed.

Lemma wf_set k v m : JsMap.wf m -> JsMap.wf (JsMap.set k v m).
Proof.
  unfold JsMap.wf. intros Hnd.
  destruct (JsMap.get k m) as [x|] eqn:E.
  - rewrite keys_set_present; [done|by exists x].
  - rewrite keys_set_absent by done.
    apply NoDup_app. split_and!; [done| |apply NoDup_singleton].
    intros y Hy Hy'. apply list_elem_of_singleton in Hy' as ->.
    by apply get_None_keys in E.
Qed.

Lemma elem_of_set k v m x :
  x ∈ JsMap.set k v m -> x = (k, v) \/ x ∈ m.
Proof.
  induction m as [|[k' v'] m IH]; simpl.
  - intros H. apply list_elem_of_singleton in H. by left.
  - destruct (str_eqb_spec k k') as [->|Hne]; intros H;
      apply elem_of_cons in H as [->|H].
    + by left.
    + right. apply elem_of_cons. by right.
    + right. apply elem_of_cons. by left.
    + destruct (IH H) as [->|H']; [by left|].
      right. apply elem_of_cons. by right.
Qed.

Lemma Forall_set (P : jsstring * V -> Prop) k v m :
  P (k, v) -> Forall P m -> Forall P (JsMap.set k v m).
Proof.
  intros Hk Hm. apply Forall_forall. intros x Hx.
  destruct (elem_of_set _ _ _ _ Hx) as [->|Hin]; [done|].
  by eapply Forall_forall in Hm.
Qed.

Lemma elem_of_delete k m x : x ∈ JsMap.delete k m -> x ∈ m.
Proof.
  induction m as [|[k' v'] m IH]; simpl; [done|].
  destruct (str_eqb_spec k k') as [->|Hne]; intros H.
  - apply elem_of_cons. by right.
  - apply elem_of_cons in H as [->|H]; apply elem_of_cons; auto.
Qed.

Lemma Forall_delete (P : jsstring * V -> Prop) k m :
  Forall P m -> Forall P (JsMap.delete k m).
Proof.
  intros Hm. apply Forall_forall. intros x Hx.
  apply elem_of_delete in Hx. by eapply Forall_forall in Hm.
Qed.

Lemma wf_delete k m : JsMap.wf m -> JsMap.wf (JsMap.delete k m).
Proof.
  unfold JsMap.wf.
  induction m as [|[k' v'] m IH]; simpl; intros Hnd; [done|].
  apply NoDup_cons in Hnd as [Hk' Hnd].
  destruct (str_eqb_spec k k') as [->|Hne]; simpl; [done|].
  apply NoDup_cons. split; [|auto].
  intros Hin. apply Hk'.
  apply list_elem_of_fmap in Hin as [[k1 v1] [-> Hin]].
  apply elem_of_delete in Hin.
  apply list_elem_of_fmap. by exists (k1, v1).
Qed.

Lemma get_delete_eq k m : JsMap.wf m -> JsMap.get k (JsMap.delete k m) = None.
Proof.
  unfold JsMap.wf.
  induction m as [|[k' v'] m IH]; simpl; intros Hnd; [done|].
  apply NoDup_cons in Hnd as [Hk' Hnd].
  destruct (str_eqb_spec k k') as [->|Hne]; simpl.
  - by apply get_None_keys.
  - destruct (str_eqb_spec k k'); [done|auto].
Qed.

Lemma get_delete_ne k k' m :
  k <> k' -> JsMap.get k' (JsMap.delete k m) = JsMap.get k' m.
Proof.
  intros Hne. induction m as [|[k1 v1] m IH]; simpl; [done|].
  destruct (str_eqb_spec k k1) as [->|Hk]; simpl.
  - destruct (str_eqb_spec k' k1); [congruence|done].
  - by rewrite IH.
Qed.

Lemma delete_absent k m : JsMap.get k m = None -> JsMap.delete k m = m.
Proof.
  induction m as [|[k' v'] m IH]; simpl; [done|].
  destruct (str_eqb_spec k k') as [->|Hne]; [done|].
  intros H. by rewrite IH.
Qed.

Lemma set_same k v m : JsMap.get k m = Some v -> JsMap.set k v m = m.
Proof.
  induction m as [|[k' v'] m IH]; simpl; [done|].
  destruct (str_eqb_spec k k') as [->|Hne].
  - by intros [= ->].
  - intros H. by rewrite IH.
Qed.

Lemma size_0_nil m : Nat.eqb (JsMap.size m) 0 = true <-> m = [].
Proof. destruct m; simpl; split; congruence. Qed.

End JsMapFacts.

(** ** The registry invariant *)

Section Handlers.

Lemma or_falsy_false (a b : jsstring) :
  a <> [] -> b <> [] ->
  negb (Js.truthy_str a) || negb (Js.truthy_str b) = false.
Proof.
  intros Ha Hb. apply truthy_str_nonempty in Ha, Hb. by rewrite Ha, Hb.
Qed.

Lemma or_falsy_true (a b : jsstring) :
  a = [] \/ b = [] ->
  negb (Js.truthy_str a) || negb (Js.truthy_str b) = true.
Proof. intros [-> | ->]; [done|]. by destruct (Js.truthy_str a). Qed.

(** The handler on a payload that passes the check. *)
Lemma on_join_valid payload ack rs s :
  valid_join payload ->
  on_join payload ack rs s =
    (JsMap.set (join_rid payload)
       (JsMap.set (join_uid payload) (join_user payload)
          (default JsMap.empty (JsMap.get (join_rid payload) rs))) rs,
     {| data_rid := Some (join_rid payload);
        data_uid := Some (join_uid payload);
        groups := {[ join_rid payload ]} ∪ groups s |},
     (call_ack ack
        (AckOk (JsMap.values
           (JsMap.set (join_uid payload) (join_user payload)
              (default JsMap.empty (JsMap.get (join_rid payload) rs)))))
      ++ [Emit (join_rid payload) (UserJoined (join_user payload))])).
Proof.
  intros (Hr & Hu & Hp). unfold on_join.
  fold (join_rid payload) (join_uid payload) (join_name payload)
       (join_peerId payload).
  apply truthy_str_nonempty in Hr, Hu, Hp. by rewrite Hr, Hu, Hp.
Qed.

(** The handler on a payload that fails the check. *)
Lemma on_join_invalid payload ack rs s :
  ~ valid_join payload ->
  on_join payload ack rs s = (rs, s, call_ack ack (AckFail (Some BAD_REQUEST))).
Proof.
  intros Hn. unfold on_join.
  fold (join_rid payload) (join_uid payload) (join_name payload)
       (join_peerId payload).
  destruct (Js.truthy_str (join_rid payload)) eqn:Hr; [|done].
  destruct (Js.truthy_str (join_uid payload)) eqn:Hu; [|done].
  destruct (Js.truthy_str (join_peerId payload)) eqn:Hp; [|done].
  exfalso. apply Hn. unfold valid_join. by rewrite <- !truthy_str_nonempty.
Qed.

Lemma on_leave_valid payload rs s :
  valid_leave payload ->
  on_leave payload rs s =
    match JsMap.get (leave_rid payload) rs with
    | None => (rs, s, [])
    | Some map =>
        (remove_member (leave_rid payload) (leave_uid payload) map rs,
         {| data_rid := data_rid s; data_uid := data_uid s;
            groups := groups s ∖ {[ leave_rid payload ]} |},
         [Emit (leave_rid payload) (UserLeft (leave_uid payload))])
    end.
Proof.
  intros (Hr & Hu). unfold on_leave.
  fold (leave_rid payload) (leave_uid payload).
  by rewrite or_falsy_false.
Qed.

Lemma on_leave_invalid payload rs s :
  ~ valid_leave payload -> on_leave payload rs s = (rs, s, []).
Proof.
  intros Hn. unfold on_leave.
  fold (leave_rid payload) (leave_uid payload).
  destruct (Js.truthy_str (leave_rid payload)) eqn:Hr; [|done].
  destruct (Js.truthy_str (leave_uid payload)) eqn:Hu; [|done].
  exfalso. apply Hn. unfold valid_leave. by rewrite <- !truthy_str_nonempty.
Qed.

Lemma on_disconnect_bound rs s rid uid :
  data_rid s = Some rid -> data_uid s = Some uid -> rid <> [] -> uid <> [] ->
  on_disconnect rs s =
    match JsMap.get rid rs with
    | None => (rs, s, [])
    | Some map => (remove_member rid uid map rs, s, [Emit rid (UserLeft uid)])
    end.
Proof.
  intros Hr Hu Hr' Hu'. unfold on_disconnect.
  by rewrite Hr, Hu, or_falsy_false.
Qed.

(** [on_disconnect] changes the registry by [remove_member] or not at all,
    and never the socket. *)
Lemma on_disconnect_cases rs s :
  on_disconnect rs s = (rs, s, []) \/
  exists rid uid map,
    data_rid s = Some rid /\ data_uid s = Some uid /\
    rid <> [] /\ uid <> [] /\ JsMap.get rid rs = Some map /\
    on_disconnect rs s =
      (remove_member rid uid map rs, s, [Emit rid (UserLeft uid)]).
Proof.
  unfold on_disconnect.
  destruct (data_rid s) as [rid|] eqn:Hr; [|by left].
  destruct (data_uid s) as [uid|] eqn:Hu; [|by left].
  destruct (Js.truthy_str rid) eqn:Tr; [|by left].
  destruct (Js.truthy_str uid) eqn:Tu; [|by left].
  simpl. destruct (JsMap.get rid rs) as [map|] eqn:Hg; [|by left].
  right. exists rid, uid, map.
  by rewrite <- !truthy_str_nonempty.
Qed.

End Handlers.

Section Invariant.

Lemma room_ok_lookup rs rid m :
  registry_ok rs -> JsMap.get rid rs = Some m -> room_ok (rid, m).
Proof.
  intros [_ Hall] Hg. apply get_Some_elem in Hg.
  by eapply Forall_forall in Hall.
Qed.

Lemma registry_ok_empty : registry_ok JsMap.empty.
Proof. split; [apply NoDup_nil_2|apply Forall_nil_2]. Qed.

Lemma registry_ok_join payload ack rs s :
  registry_ok rs -> registry_ok (on_join payload ack rs s).1.1.
Proof.
  intros Hok.
  destruct (decide (valid_join payload)) as [Hv|Hn];
    [|by rewrite on_join_invalid].
  rewrite on_join_valid by done. simpl.
  destruct Hv as (Hr & Hu & Hp). destruct Hok as [Hwf Hall].
  split; [by apply wf_set|].
  apply Forall_set; [|done].
  assert (Hm : JsMap.wf (default JsMap.empty (JsMap.get (join_rid payload) rs))
               /\ Forall user_ok
                    (default JsMap.empty (JsMap.get (join_rid payload) rs))).
  { destruct (JsMap.get (join_rid payload) rs) as [m|] eqn:Hg; simpl.
    - destruct (room_ok_lookup rs _ m (conj Hwf Hall) Hg) as (_ & ? & _ & _ & ?).
      done.
    - split; [apply NoDup_nil_2|apply Forall_nil_2]. }
  destruct Hm as [Hmwf Hmall].
  unfold room_ok; simpl. split_and!.
  - apply set_not_nil.
  - by apply wf_set.
  - done.
  - apply normRoomId_Str_fixed.
  - apply Forall_set; [|done].
    unfold user_ok, join_user; simpl. split_and!; try done.
    unfold join_name, Js.str_or.
    destruct (Js.truthy_str _) eqn:E; [|done].
    by apply truthy_str_nonempty.
Qed.

Lemma not_elem_of_delete {V} (k : jsstring) (v : V) (m : JsMap.t V) :
  JsMap.wf m -> (k, v) ∉ JsMap.delete k m.
Proof.
  intros Hwf Hin.
  pose proof (get_delete_eq k m Hwf) as Hg.
  apply get_None_keys in Hg. apply Hg.
  apply list_elem_of_fmap. by exists (k, v).
Qed.

Lemma registry_ok_remove rid uid map rs :
  registry_ok rs -> JsMap.get rid rs = Some map ->
  registry_ok (remove_member rid uid map rs).
Proof.
  intros Hok Hg.
  destruct (room_ok_lookup _ _ _ Hok Hg) as (Hne & Hmwf & Hr & Hn & Hall).
  destruct Hok as [Hwf Hrs]. simpl in *.
  unfold remove_member.
  destruct (Nat.eqb (JsMap.size (JsMap.delete uid map)) 0) eqn:E.
  - split; [by apply wf_delete, wf_set|].
    apply Forall_forall. intros x Hx.
    pose proof (elem_of_delete _ _ _ Hx) as Hx'.
    apply elem_of_set in Hx' as [->|Hx'].
    + exfalso. revert Hx. by apply not_elem_of_delete, wf_set.
    + by eapply Forall_forall in Hrs.
  - split; [by apply wf_set|].
    apply Forall_set; [|done].
    unfold room_ok; simpl. split_and!; try done.
    + intros Hnil. apply size_0_nil in Hnil. congruence.
    + by apply wf_delete.
    + by apply Forall_delete.
Qed.

Lemma registry_ok_leave payload rs s :
  registry_ok rs -> registry_ok (on_leave payload rs s).1.1.
Proof.
  intros Hok.
  destruct (decide (valid_leave payload)) as [Hv|Hn];
    [|by rewrite on_leave_invalid].
  rewrite on_leave_valid by done.
  destruct (JsMap.get (leave_rid payload) rs) as [m|] eqn:Hg; simpl; [|done].
  by apply registry_ok_remove.
Qed.

Lemma registry_ok_disconnect rs s :
  registry_ok rs -> registry_ok (on_disconnect rs s).1.1.
Proof.
  intros Hok.
  destruct (on_disconnect_cases rs s)
    as [->|(rid & uid & m & _ & _ & _ & _ & Hg & ->)]; simpl; [done|].
  by apply registry_ok_remove.
Qed.

Lemma registry_ok_step w e :
  registry_ok (rooms w) -> registry_ok (rooms (step w e).1).
Proof.
  intros Hok. unfold step.
  destruct (handle e (rooms w) (socket_of w (event_socket e)))
    as [[rs s] out] eqn:E; simpl.
  change rs with (rs, s, out).1.1. rewrite <- E.
  destruct e; simpl;
    [by apply registry_ok_join|by apply registry_ok_leave
    |by apply registry_ok_disconnect].
Qed.

Lemma registry_ok_run evs w :
  registry_ok (rooms w) -> registry_ok (rooms (run w evs).1).
Proof.
  revert w. induction evs as [|e evs IH]; intros w Hok; simpl; [done|].
  pose proof (registry_ok_step w e Hok) as H1.
  destruct (step w e) as [w1 out1]. simpl in H1.
  specialize (IH w1 H1).
  by destruct (run w1 evs) as [w2 out2].
Qed.

(** Every state the server reaches satisfies the registry invariant. *)
Lemma registry_ok_reachable evs : registry_ok (rooms (state_after evs)).
Proof. apply registry_ok_run, registry_ok_empty. Qed.

End Invariant.

(** ** Removal from a room *)

Section Removal.

(** The room under [rid] after [remove_member]: gone when the deletion
    emptied it, the room without [uid] otherwise. *)
Lemma get_remove_member rid uid map rs :
  JsMap.wf rs ->
  JsMap.get rid (remove_member rid uid map rs) =
    if Nat.eqb (JsMap.size (JsMap.delete uid map)) 0 then None
    else Some (JsMap.delete uid map).
Proof.
  intros Hwf. unfold remove_member.
  destruct (Nat.eqb _ 0).
  - by apply get_delete_eq, wf_set.
  - apply get_set_eq.
Qed.

(** The other rooms are not touched. *)
Lemma get_remove_member_ne rid rid' uid map rs :
  rid <> rid' ->
  JsMap.get rid' (remove_member rid uid map rs) = JsMap.get rid' rs.
Proof.
  intros Hne. unfold remove_member.
  destruct (Nat.eqb _ 0).
  - by rewrite get_delete_ne, get_set_ne.
  - by rewrite get_set_ne.
Qed.

(** Removing a uid that is not in a (non-empty) room changes nothing. *)
Lemma remove_member_absent rid uid map rs :
  JsMap.get rid rs = Some map -> map <> [] -> JsMap.get uid map = None ->
  remove_member rid uid map rs = rs.
Proof.
  intros Hg Hne Hu. unfold remove_member.
  rewrite delete_absent by done.
  destruct (Nat.eqb (JsMap.size map) 0) eqn:E.
  - by apply size_0_nil in E.
  - by apply set_same.
Qed.

(** After the removal the uid is not in the room any more. *)
Lemma remove_member_gone rid uid map rs m' :
  registry_ok rs -> JsMap.get rid rs = Some map ->
  JsMap.get rid (remove_member rid uid map rs) = Some m' ->
  JsMap.get uid m' = None.
Proof.
  intros Hok Hg. rewrite get_remove_member by apply Hok.
  destruct (Nat.eqb _ 0); [done|]. intros [= <-].
  apply get_delete_eq.
  by destruct (room_ok_lookup _ _ _ Hok Hg) as (_ & ? & _).
Qed.

End Removal.

(** ** Claims *)

(** C1. In every state reached by join, leave and disconnect events, a room
    id is a key of the registry if and only if the room has a member; and
    when a room's only member is removed, by a leave or by the disconnect of
    the socket bound to it, the room id is no longer a key of the registry. *)
Theorem C1_room_key_iff_nonempty (evs : list Event) :
  (forall rid,
      is_Some (JsMap.get rid (rooms (state_after evs))) <->
      room_members (rooms (state_after evs)) rid <> []) /\
  (forall sid payload u,
      JsMap.get (leave_rid payload) (rooms (state_after evs))
        = Some [(leave_uid payload, u)] ->
      JsMap.get (leave_rid payload)
        (rooms (step (state_after evs) (ELeave sid payload)).1) = None) /\
  (forall sid rid uid u,
      data_rid (socket_of (state_after evs) sid) = Some rid ->
      data_uid (socket_of (state_after evs) sid) = Some uid ->
      JsMap.get rid (rooms (state_after evs)) = Some [(uid, u)] ->
      JsMap.get rid (rooms (step (state_after evs) (EDisconnect sid)).1)
        = None).
Proof.
  pose proof (registry_ok_reachable evs) as Hok.
  set (w := state_after evs) in *.
  assert (Hsole : forall rid uid u,
             JsMap.get rid (rooms w) = Some [(uid, u)] ->
             rid <> [] /\ uid <> [] /\
             JsMap.get rid (remove_member rid uid [(uid, u)] (rooms w)) = None).
  { intros rid uid u Hg.
    destruct (room_ok_lookup _ _ _ Hok Hg) as (_ & _ & Hr & _ & Hall).
    simpl in *. apply Forall_cons in Hall as [(_ & Hu & _) _].
    split_and!; [done..|].
    rewrite get_remove_member by apply Hok.
    simpl. by rewrite str_eqb_refl. }
  split_and!.
  - intros rid. unfold room_members. split.
    + intros [m Hm]. rewrite Hm.
      destruct (room_ok_lookup _ _ _ Hok Hm) as (Hne & _). simpl in Hne.
      by destruct m.
    + destruct (JsMap.get rid (rooms w)); [by eexists|done].
  - intros sid payload u Hg.
    destruct (Hsole _ _ _ Hg) as (Hr & Hu & Hnone).
    unfold step; simpl.
    rewrite on_leave_valid by done. by rewrite Hg.
  - intros sid rid uid u Hdr Hdu Hg.
    destruct (Hsole _ _ _ Hg) as (Hr & Hu & Hnone).
    unfold step; simpl.
    rewrite (on_disconnect_bound _ _ rid uid) by done. by rewrite Hg.
Qed.

Lemma C1_room_key_iff_nonempty_witness :
  JsMap.get (lit "X1")
    (rooms (step (state_after ev_one_member)
              (ELeave 2 (leave_of " x1" "u1"))).1)
    = None /\
  JsMap.get (lit "X1") (rooms (step (state_after ev_one_member) (EDisconnect 1)).1)
    = None.
Proof.
  split.
  - apply (proj1 (proj2 (C1_room_key_iff_nonempty ev_one_member)) 2
             (leave_of " x1" "u1")
             (user "u1" "Ann" "p1")).
    reflexivity.
  - apply (proj2 (proj2 (C1_room_key_iff_nonempty ev_one_member)) 1 (lit "X1") (lit "u1")
             (user "u1" "Ann" "p1")); reflexivity.
Defined.

(** C2. A join whose normalized room id, trimmed uid or trimmed peer id is
    empty is answered with [{ ok: false, error: "BAD_REQUEST" }] through the
    acknowledgment callback, sends nothing else, and changes neither the
    registry nor the socket: no room is created. *)
Theorem C2_join_bad_request (payload : option JoinPayload) (ack : bool)
    (w : World) (sid : nat) :
  join_rid payload = [] \/ join_uid payload = [] \/ join_peerId payload = [] ->
  on_join payload ack (rooms w) (socket_of w sid) =
    (rooms w, socket_of w sid,
     if ack then [Ack (AckFail (Some BAD_REQUEST))] else []) /\
  rooms (step w (EJoin sid payload ack)).1 = rooms w /\
  (forall sid', socket_of (step w (EJoin sid payload ack)).1 sid'
                = socket_of w sid') /\
  (step w (EJoin sid payload ack)).2 =
    (if ack then [(sid, Ack (AckFail (Some BAD_REQUEST)))] else []).
Proof.
  intros Hbad.
  assert (Hn : ~ valid_join payload).
  { unfold valid_join. intros (? & ? & ?). by destruct Hbad as [?|[?|?]]. }
  unfold step; simpl. rewrite on_join_invalid by done. simpl.
  split_and!; [done|done| |by destruct ack].
  intros sid'. unfold socket_of at 1; simpl.
  destruct (decide (sid = sid')) as [->|Hne].
  - by rewrite lookup_insert_eq.
  - by rewrite lookup_insert_ne.
Qed.

Lemma C2_join_bad_request_witness :
  on_join blank_uid_join true (rooms init) (socket_of init 1) =
    (rooms init, socket_of init 1, [Ack (AckFail (Some BAD_REQUEST))]) /\
  rooms (step init (EJoin 1 blank_uid_join true)).1 = rooms init /\
  (forall sid', socket_of (step init (EJoin 1 blank_uid_join true)).1 sid'
                = socket_of init sid') /\
  (step init (EJoin 1 blank_uid_join true)).2 =
    [(1, Ack (AckFail (Some BAD_REQUEST)))].
Proof.
  apply (C2_join_bad_request blank_uid_join true init 1).
  right; left; reflexivity.
Defined.



(** C10. In every reachable state, every room id of the registry is
    non-empty and a fixed point of normalization: it is left unchanged by
    [trim] and by [toUpperCase], it has no white space at either end, and
    none of its code units, the letters [a] to [z] among them, is changed
    by upper-casing.  Looking it up finds its room, and inside every room
    each record is stored under its own uid and is found by looking that
    uid up. *)
Theorem C10_keys_normalized (evs : list Event) (rid : jsstring)
    (m : JsMap.t VideoUser) :
  (rid, m) ∈ rooms (state_after evs) ->
  (rid <> [] /\ normRoomId (Js.Str rid) = rid /\ Js.trim rid = rid
   /\ Js.toUpperCase rid = rid /\ no_ws_ends rid /\ no_lower rid) /\
  JsMap.get rid (rooms (state_after evs)) = Some m /\
  (forall k p, (k, p) ∈ m -> uid p = k /\ JsMap.get (uid p) m = Some p).
Proof.
  intros Hin.
  destruct (registry_ok_reachable evs) as [Hwf Hall].
  pose proof Hall as Hroom.
  eapply Forall_forall in Hroom; [|exact Hin].
  destruct Hroom as (_ & Hmwf & Hne & Hnorm & Husers). simpl in *.
  split_and!; try done.
  - rewrite <- Hnorm. apply trim_normRoomId.
  - rewrite <- Hnorm. apply toUpperCase_normRoomId.
  - rewrite <- Hnorm. apply no_ws_ends_normRoomId.
  - rewrite <- Hnorm. apply no_lower_normRoomId.
  - by apply elem_get_Some.
  - intros k p Hkp.
    pose proof Husers as Hu. eapply Forall_forall in Hu; [|exact Hkp].
    destruct Hu as (Hk & _). simpl in Hk. split; [done|].
    rewrite Hk. by apply elem_get_Some.
Qed.

Lemma C10_keys_normalized_witness :
  (cafe_id <> [] /\ normRoomId (Js.Str cafe_id) = cafe_id
   /\ Js.trim cafe_id = cafe_id /\ Js.toUpperCase cafe_id = cafe_id
   /\ no_ws_ends cafe_id /\ no_lower cafe_id) /\
  JsMap.get cafe_id (rooms (state_after ev_padded))
    = Some [(lit "u1", user "u1" "Guest" "p1")] /\
  (forall k p,
     (k, p) ∈ [(lit "u1", user "u1" "Guest" "p1")] ->
     uid p = k /\
     JsMap.get (uid p)
       [(lit "u1", user "u1" "Guest" "p1")] = Some p).
Proof.
  apply (C10_keys_normalized ev_padded cafe_id
           [(lit "u1", user "u1" "Guest" "p1")]).
  vm_compute. apply list_elem_of_here.
Defined.

(** ** The peers list of a room *)

Section Peers.

Lemma filter_uid_absent (k : jsstring) (m : JsMap.t VideoUser) :
  Forall user_ok m -> k ∉ JsMap.keys m ->
  filter (fun p => uid p = k) (JsMap.values m) = [].
Proof.
  induction m as [|[k' v'] m IH]; simpl; intros Hall Hk; [done|].
  apply Forall_cons in Hall as [(Hu & _) Hall]. simpl in Hu.
  apply not_elem_of_cons in Hk as [Hne Hk].
  rewrite filter_cons_False by congruence. by apply IH.
Qed.

(** After [set k u], with [u] carrying the uid [k], the values of the room
    hold exactly one record of that uid: [u]. *)
Lemma filter_uid_set (k : jsstring) (u : VideoUser) (m : JsMap.t VideoUser) :
  uid u = k -> JsMap.wf m -> Forall user_ok m ->
  filter (fun p => uid p = k) (JsMap.values (JsMap.set k u m)) = [u].
Proof.
  unfold JsMap.wf. intros Hu.
  induction m as [|[k' v'] m IH]; simpl; intros Hnd Hall.
  - by rewrite filter_cons_True.
  - apply NoDup_cons in Hnd as [Hk' Hnd].
    apply Forall_cons in Hall as [(Hv' & _) Hall]. simpl in Hv'.
    destruct (str_eqb_spec k k') as [->|Hne]; simpl.
    + rewrite filter_cons_True by done.
      f_equal. by apply filter_uid_absent.
    + rewrite filter_cons_False by congruence. by apply IH.
Qed.

End Peers.

(** C3. A join that passes the check, in any reachable state, is answered
    with [{ ok: true, peers }] where [peers] holds exactly one record of the
    joining uid: the trimmed uid, the trimmed peer id, and the trimmed name,
    or ["Guest"] when the name is missing or blank. *)
Theorem C3_join_ack_peers (evs : list Event) (sid : nat)
    (payload : option JoinPayload) (ack : bool) :
  valid_join payload ->
  exists peers,
    (step (state_after evs) (EJoin sid payload ack)).2 =
      ((if ack then [(sid, Ack (AckOk peers))] else [])
       ++ [(sid, Emit (join_rid payload) (UserJoined (join_user payload)))])
    /\ peers = room_members
                 (rooms (step (state_after evs) (EJoin sid payload ack)).1)
                 (join_rid payload)
    /\ filter (fun p => uid p = join_uid payload) peers = [join_user payload]
    /\ uid (join_user payload)
       = Js.trim (Js.String_or_empty (opt_field jp_uid payload))
    /\ peerId (join_user payload)
       = Js.trim (Js.String_or_empty (opt_field jp_peerId payload))
    /\ name (join_user payload) =
       (if decide (Js.trim (Js.String_or_empty (opt_field jp_name payload)) = [])
        then (lit "Guest")
        else Js.trim (Js.String_or_empty (opt_field jp_name payload))).
Proof.
  intros Hv.
  pose proof (registry_ok_reachable evs) as Hok.
  set (w := state_after evs) in *.
  eexists. unfold step; simpl. rewrite on_join_valid by done. simpl.
  split_and!.
  - destruct ack; reflexivity.
  - unfold room_members. by rewrite get_set_eq.
  - destruct (JsMap.get (join_rid payload) (rooms w)) as [m|] eqn:Hg; simpl.
    + destruct (room_ok_lookup _ _ _ Hok Hg) as (_ & Hwf & _ & _ & Hall).
      by apply filter_uid_set.
    + by rewrite filter_cons_True.
  - done.
  - done.
  - unfold join_name, Js.str_or.
    destruct (Js.trim _) as [|a t]; [done|].
    by destruct (decide (a :: t = [])).
Qed.

Lemma C3_join_ack_peers_witness :
  exists peers,
    (step (state_after ev_one_member) (EJoin 2 blank_name_join true)).2 =
      [(2, Ack (AckOk peers));
       (2, Emit (lit "X1") (UserJoined (user "u2" "Guest" "p2")))]
    /\ peers = room_members
                 (rooms (step (state_after ev_one_member) (EJoin 2 blank_name_join true)).1)
                 (lit "X1")
    /\ filter (fun p => uid p = lit "u2") peers = [user "u2" "Guest" "p2"]
    /\ uid (join_user blank_name_join) = lit "u2"
    /\ peerId (join_user blank_name_join) = lit "p2"
    /\ name (join_user blank_name_join) = lit "Guest".
Proof.
  apply (C3_join_ack_peers ev_one_member 2 blank_name_join true).
  unfold valid_join. split_and!; vm_compute; congruence.
Defined.

(** C4. A join that passes the check for a uid that is already in the room
    is answered with [{ ok: true, ... }]; it puts the new record in the place
    of the stored one and leaves the keys of the room, their number and
    every other record as they were. *)
Theorem C4_repeat_join_upsert (payload : option JoinPayload) (ack : bool)
    (rs : Rooms) (s : Socket) (m : JsMap.t VideoUser) :
  valid_join payload ->
  JsMap.get (join_rid payload) rs = Some m ->
  is_Some (JsMap.get (join_uid payload) m) ->
  exists m',
    JsMap.get (join_rid payload) (on_join payload ack rs s).1.1 = Some m'
    /\ JsMap.get (join_uid payload) m' = Some (join_user payload)
    /\ JsMap.size m' = JsMap.size m
    /\ JsMap.keys m' = JsMap.keys m
    /\ (forall k, k <> join_uid payload -> JsMap.get k m' = JsMap.get k m)
    /\ (on_join payload ack rs s).2 =
         ((if ack then [Ack (AckOk (JsMap.values m'))] else [])
          ++ [Emit (join_rid payload) (UserJoined (join_user payload))]).
Proof.
  intros Hv Hg Hin.
  rewrite on_join_valid by done. rewrite Hg. simpl.
  eexists. split_and!.
  - apply get_set_eq.
  - apply get_set_eq.
  - by apply size_set_present.
  - by apply keys_set_present.
  - intros k Hk. by apply get_set_ne.
  - by destruct ack.
Qed.

Lemma C4_repeat_join_upsert_witness :
  exists m',
    JsMap.get (lit "X1") (on_join repeat_join true rooms_after_first fresh_socket).1.1 = Some m'
    /\ JsMap.get (lit "u1") m' = Some (user "u1" "Anna" "p9")
    /\ JsMap.size m' = 2
    /\ JsMap.keys m' = [(lit "u0"); (lit "u1")]
    /\ (forall k, k <> (lit "u1") -> JsMap.get k m' = JsMap.get k room_after_first)
    /\ (on_join repeat_join true rooms_after_first fresh_socket).2 =
         [Ack (AckOk (JsMap.values m'));
          Emit (lit "X1") (UserJoined (user "u1" "Anna" "p9"))].
Proof.
  apply (C4_repeat_join_upsert repeat_join true rooms_after_first fresh_socket room_after_first).
  - unfold valid_join. split_and!; vm_compute; congruence.
  - reflexivity.
  - vm_compute. by eexists.
Defined.

(** ** Sockets and sessions *)

Section Sessions.

Lemma socket_of_step_same w e :
  socket_of (step w e).1 (event_socket e)
  = (handle e (rooms w) (socket_of w (event_socket e))).1.2.
Proof.
  unfold step.
  destruct (handle e (rooms w) (socket_of w (event_socket e))) as [[rs s] out].
  unfold socket_of at 1; simpl. by rewrite lookup_insert_eq.
Qed.

Lemma socket_of_step_other w e sid :
  event_socket e <> sid -> socket_of (step w e).1 sid = socket_of w sid.
Proof.
  intros Hne. unfold step.
  destruct (handle e (rooms w) (socket_of w (event_socket e))) as [[rs s] out].
  unfold socket_of at 1; simpl. by rewrite lookup_insert_ne.
Qed.

Lemma rooms_step w e :
  rooms (step w e).1 = (handle e (rooms w) (socket_of w (event_socket e))).1.1.
Proof.
  unfold step.
  by destruct (handle e (rooms w) (socket_of w (event_socket e))) as [[rs s] out].
Qed.

Lemma out_step w e :
  (step w e).2
  = map (pair (event_socket e))
      (handle e (rooms w) (socket_of w (event_socket e))).2.
Proof.
  unfold step.
  by destruct (handle e (rooms w) (socket_of w (event_socket e))) as [[rs s] out].
Qed.

(** The leave handler never writes [socket.data]. *)
Lemma on_leave_data payload rs s :
  data_rid (on_leave payload rs s).1.2 = data_rid s /\
  data_uid (on_leave payload rs s).1.2 = data_uid s.
Proof.
  unfold on_leave.
  destruct (negb _ || negb _); [done|].
  by destruct (JsMap.get _ rs).
Qed.

(** The disconnect handler never writes the socket. *)
Lemma on_disconnect_socket rs s : (on_disconnect rs s).1.2 = s.
Proof.
  by destruct (on_disconnect_cases rs s)
    as [->|(rid & uid & m & _ & _ & _ & _ & _ & ->)].
Qed.

Lemma session_ok_handle e rs s :
  session_ok s -> session_ok (handle e rs s).1.2.
Proof.
  intros Hs. destruct e as [sid payload ack|sid payload|sid]; simpl.
  - destruct (decide (valid_join payload)) as [Hv|Hn];
      [|by rewrite on_join_invalid].
    rewrite on_join_valid by done. simpl.
    right. exists (join_rid payload), (join_uid payload).
    by destruct Hv as (? & ? & ?).
  - destruct (on_leave_data payload rs s) as [Hr Hu].
    unfold session_ok. by rewrite Hr, Hu.
  - by rewrite on_disconnect_socket.
Qed.

Lemma session_ok_step w e :
  (forall sid, session_ok (socket_of w sid)) ->
  forall sid, session_ok (socket_of (step w e).1 sid).
Proof.
  intros Hw sid.
  destruct (decide (event_socket e = sid)) as [<-|Hne].
  - rewrite socket_of_step_same. apply session_ok_handle, Hw.
  - by rewrite socket_of_step_other.
Qed.

Lemma session_ok_run evs w :
  (forall sid, session_ok (socket_of w sid)) ->
  forall sid, session_ok (socket_of (run w evs).1 sid).
Proof.
  revert w. induction evs as [|e evs IH]; intros w Hw; simpl; [done|].
  pose proof (session_ok_step w e Hw) as H1.
  destruct (step w e) as [w1 out1]. simpl in H1.
  specialize (IH w1 H1).
  by destruct (run w1 evs) as [w2 out2].
Qed.

Lemma session_ok_reachable evs sid :
  session_ok (socket_of (state_after evs) sid).
Proof. apply session_ok_run. intros sid'. by left. Qed.

(** A socket that sent no join that passes the check has an empty session. *)
Lemma session_empty_without_join evs sid w :
  data_rid (socket_of w sid) = None -> data_uid (socket_of w sid) = None ->
  (forall payload ack, EJoin sid payload ack ∈ evs -> ~ valid_join payload) ->
  data_rid (socket_of (run w evs).1 sid) = None /\
  data_uid (socket_of (run w evs).1 sid) = None.
Proof.
  revert w. induction evs as [|e evs IH]; intros w Hr Hu Hj; simpl; [done|].
  assert (H1 : data_rid (socket_of (step w e).1 sid) = None /\
               data_uid (socket_of (step w e).1 sid) = None).
  { destruct (decide (event_socket e = sid)) as [<-|Hne];
      [|by rewrite socket_of_step_other].
    rewrite socket_of_step_same.
    destruct e as [sid payload ack|sid payload|sid]; simpl in *.
    - rewrite on_join_invalid; [done|]. apply (Hj payload ack), list_elem_of_here.
    - destruct (on_leave_data payload (rooms w) (socket_of w sid)) as [-> ->].
      done.
    - by rewrite on_disconnect_socket. }
  destruct (step w e) as [w1 out1]. simpl in H1. destruct H1 as [Hr1 Hu1].
  specialize (IH w1 Hr1 Hu1).
  destruct (run w1 evs) as [w2 out2]. simpl in *.
  apply IH. intros payload ack Hin.
  apply (Hj payload ack). by apply list_elem_of_further.
Qed.

End Sessions.

(** C7. The disconnect handler of a socket whose session is empty does
    nothing: nothing is sent, and the registry and the socket are as they
    were.  And the session of a socket is empty as long as the socket has
    sent no join that passes the check. *)
Theorem C7_disconnect_without_session (w : World) (sid : nat)
    (evs : list Event) :
  (data_rid (socket_of w sid) = None \/ data_uid (socket_of w sid) = None ->
   on_disconnect (rooms w) (socket_of w sid) = (rooms w, socket_of w sid, [])
   /\ rooms (step w (EDisconnect sid)).1 = rooms w
   /\ (step w (EDisconnect sid)).2 = []) /\
  ((forall payload ack, EJoin sid payload ack ∈ evs -> ~ valid_join payload) ->
   data_rid (socket_of (state_after evs) sid) = None
   /\ data_uid (socket_of (state_after evs) sid) = None).
Proof.
  split.
  - intros Hempty.
    assert (H : on_disconnect (rooms w) (socket_of w sid)
                = (rooms w, socket_of w sid, [])).
    { unfold on_disconnect.
      destruct Hempty as [-> | ->]; [done|].
      by destruct (data_rid (socket_of w sid)). }
    unfold step; simpl. by rewrite H.
  - intros Hj. by apply session_empty_without_join.
Qed.

Lemma C7_disconnect_without_session_witness :
  (on_disconnect (rooms (state_after ev_one_member))
       (socket_of (state_after ev_one_member) 2)
     = (rooms (state_after ev_one_member),
        socket_of (state_after ev_one_member) 2, [])
   /\ rooms (step (state_after ev_one_member) (EDisconnect 2)).1
      = rooms (state_after ev_one_member)
   /\ (step (state_after ev_one_member) (EDisconnect 2)).2 = []) /\
  (data_rid (socket_of (state_after ev_one_member) 2) = None
   /\ data_uid (socket_of (state_after ev_one_member) 2) = None).
Proof.
  destruct (C7_disconnect_without_session (state_after ev_one_member) 2
              ev_one_member) as [Hnothing Hempty].
  split.
  - apply Hnothing. left; reflexivity.
  - apply Hempty. intros payload ack Hin.
    apply list_elem_of_singleton in Hin. discriminate Hin.
Defined.

(** C9. A join that passes the check on a socket bound to [(R1, u1)] binds
    the socket to the new pair and removes nothing: a record of [u1] in room
    [R1] is still there (the same record, unless the join is for [(R1, u1)]
    itself), room [R1] is untouched when the join is for another room, the
    socket stays in the transport groups it was in, and the only broadcast
    is [user-joined]. *)
Theorem C9_rejoin_no_implicit_leave (payload : option JoinPayload)
    (ack : bool) (rs : Rooms) (s : Socket) (R1 u1 : jsstring) :
  data_rid s = Some R1 -> data_uid s = Some u1 -> valid_join payload ->
  data_rid (on_join payload ack rs s).1.2 = Some (join_rid payload) /\
  data_uid (on_join payload ack rs s).1.2 = Some (join_uid payload) /\
  (R1 <> join_rid payload ->
   JsMap.get R1 (on_join payload ack rs s).1.1 = JsMap.get R1 rs) /\
  (forall m p,
      JsMap.get R1 rs = Some m -> JsMap.get u1 m = Some p ->
      exists m',
        JsMap.get R1 (on_join payload ack rs s).1.1 = Some m' /\
        is_Some (JsMap.get u1 m') /\
        ((R1, u1) <> (join_rid payload, join_uid payload) ->
         JsMap.get u1 m' = Some p)) /\
  (forall g, g ∈ groups s -> g ∈ groups (on_join payload ack rs s).1.2) /\
  (on_join payload ack rs s).2 =
    ((if ack
      then [Ack (AckOk (room_members (on_join payload ack rs s).1.1
                          (join_rid payload)))]
      else [])
     ++ [Emit (join_rid payload) (UserJoined (join_user payload))]).
Proof.
  intros Hr Hu Hv. rewrite on_join_valid by done. simpl.
  split_and!; try done.
  - intros Hne. by apply get_set_ne.
  - intros m p Hg Hp.
    destruct (decide (R1 = join_rid payload)) as [->|Hne].
    + rewrite Hg. simpl. eexists. split; [apply get_set_eq|].
      destruct (decide (u1 = join_uid payload)) as [->|Hne'].
      * rewrite get_set_eq. split; [by eexists|]. intros H. by destruct H.
      * rewrite get_set_ne by done. rewrite Hp. split; [by eexists|done].
    + exists m. rewrite get_set_ne by done. rewrite Hp.
      split_and!; [done|by eexists|done].
  - intros g Hin. apply elem_of_union. by right.
  - unfold room_members. rewrite get_set_eq. by destruct ack.
Qed.

Lemma C9_rejoin_no_implicit_leave_witness :
  data_rid (on_join other_room_join true (rooms (state_after ev_one_member))
              (socket_of (state_after ev_one_member) 1)).1.2 = Some (lit "Y2") /\
  data_uid (on_join other_room_join true (rooms (state_after ev_one_member))
              (socket_of (state_after ev_one_member) 1)).1.2 = Some (lit "u7") /\
  JsMap.get (lit "X1") (on_join other_room_join true (rooms (state_after ev_one_member))
                    (socket_of (state_after ev_one_member) 1)).1.1
    = Some [(lit "u1", user "u1" "Ann" "p1")].
Proof.
  pose proof (C9_rejoin_no_implicit_leave other_room_join true
                (rooms (state_after ev_one_member))
                (socket_of (state_after ev_one_member) 1) (lit "X1") (lit "u1")
                eq_refl eq_refl) as H.
  destruct H as (H1 & H2 & H3 & _).
  - unfold valid_join. split_and!; vm_compute; congruence.
  - split_and!; [exact H1|exact H2|].
    rewrite H3; [reflexivity|]. vm_compute; congruence.
Defined.

(** C5, as stated, fails.  Socket 1 joins room [R] as [u1]; socket 2 sends
    the leave for [(R, u1)], which empties and prunes the room.  Socket 1 is
    still in the transport group [R]; its own leave for [(R, u1)], with a
    non-empty room id and uid, now finds no room, returns at once and does
    not take the socket out of the group. *)
Lemma C5_leave_counterexample :
  valid_leave leave_r_u1 /\
  JsMap.get (lit "R") (rooms (state_after ev_pruned_by_other)) = None /\
  lit "R" ∈ groups (socket_of (state_after ev_pruned_by_other) 1) /\
  (step (state_after ev_pruned_by_other) (ELeave 1 leave_r_u1)).2 = [] /\
  lit "R" ∈ groups (socket_of (step (state_after ev_pruned_by_other) (ELeave 1 leave_r_u1)).1 1).
Proof.
  split_and!.
  - unfold valid_leave. split; vm_compute; congruence.
  - reflexivity.
  - vm_compute. reflexivity.
  - reflexivity.
  - vm_compute. reflexivity.
Qed.

(** C5, amended.  In every reachable state, a leave with a non-empty
    normalized room id and a non-empty trimmed uid does this.  When the
    registry has the room: the only thing sent is the broadcast
    [user-left { uid }] to the room, whether or not the uid was a member and
    whether or not the room is pruned; the socket is taken out of the
    transport group of the room; the room loses the uid and is pruned when
    that empties it; the other rooms are untouched; and when the uid was not
    a member the registry is unchanged.  When the registry has no such room:
    nothing is sent, and the registry and the socket, its transport groups
    included, are unchanged.  No acknowledgment, hence no error, is sent in
    either case. *)
Theorem C5_leave_effects (evs : list Event) (sid : nat)
    (payload : option LeavePayload) :
  valid_leave payload ->
  match JsMap.get (leave_rid payload) (rooms (state_after evs)) with
  | Some m =>
      (step (state_after evs) (ELeave sid payload)).2
        = [(sid, Emit (leave_rid payload) (UserLeft (leave_uid payload)))]
      /\ (groups (socket_of (step (state_after evs) (ELeave sid payload)).1 sid)
          = groups (socket_of (state_after evs) sid) ∖ {[ leave_rid payload ]})
      /\ (leave_rid payload
          ∉ groups (socket_of (step (state_after evs) (ELeave sid payload)).1
                      sid))
      /\ JsMap.get (leave_rid payload)
           (rooms (step (state_after evs) (ELeave sid payload)).1)
         = (if Nat.eqb (JsMap.size (JsMap.delete (leave_uid payload) m)) 0
            then None
            else Some (JsMap.delete (leave_uid payload) m))
      /\ (forall rid', leave_rid payload <> rid' ->
            JsMap.get rid' (rooms (step (state_after evs) (ELeave sid payload)).1)
            = JsMap.get rid' (rooms (state_after evs)))
      /\ (JsMap.get (leave_uid payload) m = None ->
          rooms (step (state_after evs) (ELeave sid payload)).1
          = rooms (state_after evs))
  | None =>
      (step (state_after evs) (ELeave sid payload)).2 = []
      /\ rooms (step (state_after evs) (ELeave sid payload)).1
         = rooms (state_after evs)
      /\ socket_of (step (state_after evs) (ELeave sid payload)).1 sid
         = socket_of (state_after evs) sid
  end.
Proof.
  intros Hv.
  pose proof (registry_ok_reachable evs) as Hok.
  set (w := state_after evs) in *.
  pose proof (socket_of_step_same w (ELeave sid payload)) as Hs.
  rewrite rooms_step, out_step. simpl in *. rewrite Hs. clear Hs.
  rewrite on_leave_valid by done.
  destruct (JsMap.get (leave_rid payload) (rooms w)) as [m|] eqn:Hg; simpl;
    [|done].
  split_and!.
  - done.
  - done.
  - intros [_ Hnot]%elem_of_difference. apply Hnot. by apply elem_of_singleton.
  - apply get_remove_member, Hok.
  - intros rid' Hne. by apply get_remove_member_ne.
  - intros Hu. apply remove_member_absent; [done| |done].
    by destruct (room_ok_lookup _ _ _ Hok Hg) as (? & _).
Qed.

Lemma C5_leave_effects_witness :
  ((step (state_after ev_two_members) (ELeave 1 leave_r_u1)).2
     = [(1, Emit (lit "R") (UserLeft (lit "u1")))]
   /\ (groups (socket_of (step (state_after ev_two_members) (ELeave 1 leave_r_u1)).1 1)
       = groups (socket_of (state_after ev_two_members) 1) ∖ {[ (lit "R") ]})
   /\ ((lit "R")
       ∉ groups (socket_of (step (state_after ev_two_members) (ELeave 1 leave_r_u1)).1 1))
   /\ JsMap.get (lit "R") (rooms (step (state_after ev_two_members) (ELeave 1 leave_r_u1)).1)
      = Some [(lit "u2", user "u2" "Bob" "p2")]
   /\ (forall rid', (lit "R") <> rid' ->
         JsMap.get rid' (rooms (step (state_after ev_two_members) (ELeave 1 leave_r_u1)).1)
         = JsMap.get rid' (rooms (state_after ev_two_members)))
   /\ (JsMap.get (lit "u1") [(lit "u1", user "u1" "Ann" "p1");
                       (lit "u2", user "u2" "Bob" "p2")] = None ->
       rooms (step (state_after ev_two_members) (ELeave 1 leave_r_u1)).1
       = rooms (state_after ev_two_members)))
  /\
  ((step (state_after ev_pruned_by_other) (ELeave 1 leave_r_u1)).2 = []
   /\ rooms (step (state_after ev_pruned_by_other) (ELeave 1 leave_r_u1)).1
      = rooms (state_after ev_pruned_by_other)
   /\ socket_of (step (state_after ev_pruned_by_other) (ELeave 1 leave_r_u1)).1 1
      = socket_of (state_after ev_pruned_by_other) 1).
Proof.
  split.
  - apply (C5_leave_effects ev_two_members 1 leave_r_u1).
    unfold valid_leave. split; vm_compute; congruence.
  - apply (C5_leave_effects ev_pruned_by_other 1 leave_r_u1).
    unfold valid_leave. split; vm_compute; congruence.
Defined.

(** C6, as stated, fails.  Sockets 1 and 2 join room [R] as [u1] and [u2],
    then socket 1 leaves.  Its session is still [(R, u1)], and its disconnect
    broadcasts [user-left { uid: u1 }] a second time.  If [u1] has joined
    again from socket 3 in between, the disconnect of socket 1 also removes
    that new record. *)
Lemma C6_leave_counterexample :
  data_rid (socket_of (state_after ev_left_one) 1) = Some (lit "R") /\
  data_uid (socket_of (state_after ev_left_one) 1) = Some (lit "u1") /\
  (step (state_after ev_left_one) (EDisconnect 1)).2
    = [(1, Emit (lit "R") (UserLeft (lit "u1")))] /\
  room_members (rooms (state_after (ev_left_one ++ [rejoin_u1]))) (lit "R")
    = [user "u2" "Bob" "p2"; user "u1" "Ann" "p3"] /\
  room_members
    (rooms (state_after (ev_left_one ++ [rejoin_u1; EDisconnect 1]))) (lit "R")
    = [user "u2" "Bob" "p2"].
Proof. split_and!; reflexivity. Qed.

(** C6, amended.  The leave handler leaves the session of the socket as it
    was.  So in every reachable state, when the socket is bound to
    [(rid, uid)], the disconnect that follows the leave runs on that pair:
    when the registry has no room [rid] any more it sends nothing and changes
    nothing; when it has, it deletes [uid] from the room once more, prunes
    the room if that empties it, and broadcasts [user-left { uid }] again.
    After the disconnect [uid] is in no room under [rid]. *)
Theorem C6_leave_keeps_session (evs : list Event) (sid : nat)
    (payload : option LeavePayload) (rid uid : jsstring) :
  data_rid (socket_of (state_after evs) sid) = Some rid ->
  data_uid (socket_of (state_after evs) sid) = Some uid ->
  data_rid (socket_of (step (state_after evs) (ELeave sid payload)).1 sid)
    = Some rid /\
  data_uid (socket_of (step (state_after evs) (ELeave sid payload)).1 sid)
    = Some uid /\
  match JsMap.get rid (rooms (step (state_after evs) (ELeave sid payload)).1) with
  | None =>
      (step (step (state_after evs) (ELeave sid payload)).1 (EDisconnect sid)).2
        = []
      /\ rooms (step (step (state_after evs) (ELeave sid payload)).1
                  (EDisconnect sid)).1
         = rooms (step (state_after evs) (ELeave sid payload)).1
  | Some m =>
      (step (step (state_after evs) (ELeave sid payload)).1 (EDisconnect sid)).2
        = [(sid, Emit rid (UserLeft uid))]
      /\ rooms (step (step (state_after evs) (ELeave sid payload)).1
                  (EDisconnect sid)).1
         = remove_member rid uid m
             (rooms (step (state_after evs) (ELeave sid payload)).1)
  end /\
  (forall m',
      JsMap.get rid
        (rooms (step (step (state_after evs) (ELeave sid payload)).1
                  (EDisconnect sid)).1) = Some m' ->
      JsMap.get uid m' = None).
Proof.
  intros Hr Hu.
  pose proof (registry_ok_step _ (ELeave sid payload)
                (registry_ok_reachable evs)) as Hok.
  pose proof (session_ok_reachable evs sid) as Hs.
  pose proof (socket_of_step_same (state_after evs) (ELeave sid payload)) as Hs1.
  simpl in Hs1.
  destruct (on_leave_data payload (rooms (state_after evs))
              (socket_of (state_after evs) sid)) as [Hr1 Hu1].
  rewrite <- Hs1, Hr in Hr1. rewrite <- Hs1, Hu in Hu1.
  set (w1 := (step (state_after evs) (ELeave sid payload)).1) in *.
  assert (Hne : rid <> [] /\ uid <> []).
  { destruct Hs as [[Hn _]|(r & u & Hr' & Hu' & ? & ?)]; [congruence|].
    rewrite Hr in Hr'. rewrite Hu in Hu'.
    by injection Hr' as <-; injection Hu' as <-. }
  destruct Hne as [Hrne Hune].
  rewrite rooms_step, out_step. simpl.
  rewrite (on_disconnect_bound _ _ rid uid) by done.
  split_and!; [done|done| |].
  - by destruct (JsMap.get rid (rooms w1)).
  - intros m'.
    destruct (JsMap.get rid (rooms w1)) as [m|] eqn:Hg; simpl.
    + by apply remove_member_gone.
    + congruence.
Qed.

Lemma C6_leave_keeps_session_witness :
  data_rid (socket_of (state_after ev_left_one) 1) = Some (lit "R") /\
  data_uid (socket_of (state_after ev_left_one) 1) = Some (lit "u1") /\
  ((step (state_after ev_left_one) (EDisconnect 1)).2
     = [(1, Emit (lit "R") (UserLeft (lit "u1")))]
   /\ rooms (step (state_after ev_left_one) (EDisconnect 1)).1
      = remove_member (lit "R") (lit "u1") [(lit "u2", user "u2" "Bob" "p2")]
          (rooms (state_after ev_left_one))) /\
  (forall m',
      JsMap.get (lit "R") (rooms (step (state_after ev_left_one) (EDisconnect 1)).1)
        = Some m' ->
      JsMap.get (lit "u1") m' = None).
Proof.
  apply (C6_leave_keeps_session ev_two_members 1 leave_r_u1 (lit "R") (lit "u1")); reflexivity.
Defined.

(** * Beyond the claims *)

Example allowedOrigins_default :
  allowedOrigins None = [(lit "http://localhost:5173"); (lit "http://127.0.0.1:5173")]
  /\ allowedOrigins (Some []) = allowedOrigins None
  /\ allowedOrigins (Some (lit " https://a.example , ,https://b.example,"))
     = [(lit "https://a.example"); (lit "https://b.example")].
Proof. split_and!; reflexivity. Qed.

Example isAllowedOrigin_examples :
  isAllowedOrigin (allowedOrigins None) (Some (lit "http://localhost:3000")) = true
  /\ isAllowedOrigin (allowedOrigins None) (Some (lit "https://evil.example")) = false
  /\ cors_origin (allowedOrigins None) (Some (lit "https://evil.example"))
     = CorsError (lit "Not allowed by CORS").
Proof. split_and!; reflexivity. Qed.

(** ** Blank strings *)

Section Blank.






End Blank.




(** X2. A leave whose normalized room id or trimmed uid is empty is ignored:
    nothing is sent, and the registry and every socket are as they were. *)
Theorem X2_leave_invalid_ignored (w : World) (sid : nat)
    (payload : option LeavePayload) :
  leave_rid payload = [] \/ leave_uid payload = [] ->
  (step w (ELeave sid payload)).2 = [] /\
  rooms (step w (ELeave sid payload)).1 = rooms w /\
  (forall sid', socket_of (step w (ELeave sid payload)).1 sid'
                = socket_of w sid').
Proof.
  intros Hbad.
  assert (Hn : ~ valid_leave payload).
  { intros (? & ?). by destruct Hbad. }
  rewrite out_step, rooms_step. simpl. rewrite on_leave_invalid by done.
  split_and!; [done..|].
  intros sid'. destruct (decide (sid = sid')) as [<-|Hne].
  - pose proof (socket_of_step_same w (ELeave sid payload)) as Hs.
    simpl in Hs. rewrite Hs. by rewrite on_leave_invalid.
  - by rewrite socket_of_step_other.
Qed.

Lemma X2_leave_invalid_ignored_witness :
  (step (state_after ev_one_member) (ELeave 1 blank_uid_leave)).2 = [] /\
  rooms (step (state_after ev_one_member) (ELeave 1 blank_uid_leave)).1
    = rooms (state_after ev_one_member) /\
  (forall sid',
      socket_of (step (state_after ev_one_member) (ELeave 1 blank_uid_leave)).1
        sid'
      = socket_of (state_after ev_one_member) sid').
Proof.
  apply (X2_leave_invalid_ignored (state_after ev_one_member) 1
           blank_uid_leave).
  right; reflexivity.
Defined.

(** ** The registry as a lookup table *)

Section Lookup.

Lemma set_absent {V} (k : jsstring) (v : V) (m : JsMap.t V) :
  JsMap.get k m = None -> JsMap.set k v m = (m ++ [(k, v)]).
Proof.
  induction m as [|[k' v'] m IH]; simpl; [done|].
  destruct (str_eqb_spec k k') as [->|Hne]; [done|].
  intros H. by rewrite IH.
Qed.

Lemma delete_appended {V} (k : jsstring) (v : V) (m : JsMap.t V) :
  JsMap.get k m = None -> JsMap.delete k (m ++ [(k, v)]) = m.
Proof.
  induction m as [|[k' v'] m IH]; simpl.
  - by rewrite str_eqb_refl.
  - destruct (str_eqb_spec k k') as [->|Hne]; [done|].
    intros H. by rewrite IH.
Qed.

Lemma set_set {V} (k : jsstring) (v v' : V) (m : JsMap.t V) :
  JsMap.set k v' (JsMap.set k v m) = JsMap.set k v' m.
Proof.
  induction m as [|[k1 v1] m IH]; simpl.
  - by rewrite str_eqb_refl.
  - destruct (str_eqb_spec k k1) as [->|Hne]; simpl.
    + by rewrite str_eqb_refl.
    + destruct (str_eqb_spec k k1); [done|]. by rewrite IH.
Qed.

Lemma member_join payload ack rs s rid k :
  valid_join payload ->
  member (on_join payload ack rs s).1.1 rid k =
    if decide (rid = join_rid payload /\ k = join_uid payload)
    then Some (join_user payload)
    else member rs rid k.
Proof.
  intros Hv. rewrite on_join_valid by done. simpl. unfold member.
  destruct (decide (rid = join_rid payload)) as [->|Hr].
  - rewrite get_set_eq.
    destruct (decide (k = join_uid payload)) as [->|Hk].
    + rewrite get_set_eq. by rewrite decide_True.
    + rewrite get_set_ne by done.
      rewrite decide_False by (by intros [_ ?]).
      by destruct (JsMap.get (join_rid payload) rs).
  - rewrite get_set_ne by done.
    by rewrite decide_False by (by intros [? _]).
Qed.

Lemma member_remove rid uid map rs rid' k :
  registry_ok rs -> JsMap.get rid rs = Some map ->
  member (remove_member rid uid map rs) rid' k =
    if decide (rid' = rid /\ k = uid) then None else member rs rid' k.
Proof.
  intros Hok Hg.
  destruct (room_ok_lookup _ _ _ Hok Hg) as (_ & Hwf & _). simpl in Hwf.
  unfold member.
  destruct (decide (rid' = rid)) as [->|Hr].
  - rewrite get_remove_member by apply Hok. rewrite Hg.
    destruct (decide (k = uid)) as [->|Hk].
    + rewrite decide_True by done.
      destruct (Nat.eqb _ 0); [done|]. by apply get_delete_eq.
    + rewrite decide_False by (by intros [_ ?]).
      destruct (Nat.eqb _ 0) eqn:E.
      * apply size_0_nil in E.
        rewrite <- (get_delete_ne uid k map) by done. by rewrite E.
      * by apply get_delete_ne.
  - rewrite get_remove_member_ne by done.
    by rewrite decide_False by (by intros [? _]).
Qed.

Lemma member_leave payload rs s rid k :
  registry_ok rs -> valid_leave payload ->
  member (on_leave payload rs s).1.1 rid k =
    if decide (rid = leave_rid payload /\ k = leave_uid payload)
    then None
    else member rs rid k.
Proof.
  intros Hok Hv. rewrite on_leave_valid by done.
  destruct (JsMap.get (leave_rid payload) rs) as [m|] eqn:Hg; simpl.
  - by apply member_remove.
  - destruct (decide _) as [[-> ->]|]; [|done].
    unfold member. by rewrite Hg.
Qed.

Lemma member_disconnect rs s rid uid rid' k :
  registry_ok rs ->
  data_rid s = Some rid -> data_uid s = Some uid -> rid <> [] -> uid <> [] ->
  member (on_disconnect rs s).1.1 rid' k =
    if decide (rid' = rid /\ k = uid) then None else member rs rid' k.
Proof.
  intros Hok Hr Hu Hrne Hune.
  rewrite (on_disconnect_bound _ _ rid uid) by done.
  destruct (JsMap.get rid rs) as [m|] eqn:Hg; simpl.
  - by apply member_remove.
  - destruct (decide _) as [[-> ->]|]; [|done].
    unfold member. by rewrite Hg.
Qed.

End Lookup.

(** X3. After a join that passes the check, looking up [(rid, uid)] in the
    registry gives the record of the join, and every other pair of room id
    and uid gives what it gave before: the join writes one record and
    touches no other, in the joined room or elsewhere. *)
Theorem X3_join_lookup (w : World) (sid : nat) (payload : option JoinPayload)
    (ack : bool) (rid k : jsstring) :
  valid_join payload ->
  member (rooms (step w (EJoin sid payload ack)).1) rid k =
    if decide (rid = join_rid payload /\ k = join_uid payload)
    then Some (join_user payload)
    else member (rooms w) rid k.
Proof.
  intros Hv. rewrite rooms_step. simpl. by apply member_join.
Qed.

Lemma X3_join_lookup_witness :
  member (rooms (step (state_after ev_one_member) (EJoin 2 join_x1_u2 true)).1)
    (lit "X1") (lit "u2") = Some (user "u2" "Bob" "p2") /\
  member (rooms (step (state_after ev_one_member) (EJoin 2 join_x1_u2 true)).1)
    (lit "X1") (lit "u1") = Some (user "u1" "Ann" "p1").
Proof.
  split.
  - apply (X3_join_lookup (state_after ev_one_member) 2 join_x1_u2 true
             (lit "X1") (lit "u2")).
    unfold valid_join. split_and!; vm_compute; congruence.
  - apply (X3_join_lookup (state_after ev_one_member) 2 join_x1_u2 true
             (lit "X1") (lit "u1")).
    unfold valid_join. split_and!; vm_compute; congruence.
Defined.

(** X4. In every reachable state, after a leave with a non-empty room id
    and uid, whichever socket sends it, looking up [(rid, uid)] gives
    nothing and every other pair gives what it gave before: the leave
    removes at most that one record. *)
Theorem X4_leave_lookup (evs : list Event) (sid : nat)
    (payload : option LeavePayload) (rid k : jsstring) :
  valid_leave payload ->
  member (rooms (step (state_after evs) (ELeave sid payload)).1) rid k =
    if decide (rid = leave_rid payload /\ k = leave_uid payload)
    then None
    else member (rooms (state_after evs)) rid k.
Proof.
  intros Hv. rewrite rooms_step. simpl.
  apply member_leave; [apply registry_ok_reachable|done].
Qed.

Lemma X4_leave_lookup_witness :
  member (rooms (step (state_after ev_two_members) (ELeave 2 leave_r_u1)).1)
    (lit "R") (lit "u1") = None /\
  member (rooms (step (state_after ev_two_members) (ELeave 2 leave_r_u1)).1)
    (lit "R") (lit "u2") = Some (user "u2" "Bob" "p2").
Proof.
  split.
  - apply (X4_leave_lookup ev_two_members 2 leave_r_u1 (lit "R") (lit "u1")).
    unfold valid_leave. split; vm_compute; congruence.
  - apply (X4_leave_lookup ev_two_members 2 leave_r_u1 (lit "R") (lit "u2")).
    unfold valid_leave. split; vm_compute; congruence.
Defined.

(** X5. In every reachable state, the disconnect of a socket bound to
    [(rid, uid)] removes the record of [uid] in room [rid], whichever socket
    created it, and no other record. *)
Theorem X5_disconnect_lookup (evs : list Event) (sid : nat)
    (rid uid rid' k : jsstring) :
  data_rid (socket_of (state_after evs) sid) = Some rid ->
  data_uid (socket_of (state_after evs) sid) = Some uid ->
  member (rooms (step (state_after evs) (EDisconnect sid)).1) rid' k =
    if decide (rid' = rid /\ k = uid) then None
    else member (rooms (state_after evs)) rid' k.
Proof.
  intros Hr Hu. rewrite rooms_step. simpl.
  destruct (session_ok_reachable evs sid)
    as [[Hn _]|(r & u & Hr' & Hu' & Hrne & Hune)]; [congruence|].
  rewrite Hr in Hr'. rewrite Hu in Hu'.
  injection Hr' as <-. injection Hu' as <-.
  apply (member_disconnect _ _ rid uid); try done.
  apply registry_ok_reachable.
Qed.

Lemma X5_disconnect_lookup_witness :
  member (rooms (step (state_after ev_two_members) (EDisconnect 2)).1)
    (lit "R") (lit "u2") = None /\
  member (rooms (step (state_after ev_two_members) (EDisconnect 2)).1)
    (lit "R") (lit "u1") = Some (user "u1" "Ann" "p1").
Proof.
  split.
  - apply (X5_disconnect_lookup ev_two_members 2 (lit "R") (lit "u2") (lit "R") (lit "u2"));
      reflexivity.
  - apply (X5_disconnect_lookup ev_two_members 2 (lit "R") (lit "u2") (lit "R") (lit "u1"));
      reflexivity.
Defined.

(** X6. When the joining uid is not yet in the room, the join puts its
    record after the members the room had: the peers of the acknowledgment
    are the old members, in their order, followed by the new one.  This
    covers the first join of a room, whose peers list is the new record
    alone. *)
Theorem X6_join_appends (w : World) (sid : nat) (payload : option JoinPayload)
    (ack : bool) :
  valid_join payload ->
  member (rooms w) (join_rid payload) (join_uid payload) = None ->
  room_members (rooms (step w (EJoin sid payload ack)).1) (join_rid payload)
    = (room_members (rooms w) (join_rid payload) ++ [join_user payload])
  /\ (step w (EJoin sid payload ack)).2 =
       ((if ack
         then [(sid, Ack (AckOk (room_members (rooms w) (join_rid payload)
                                   ++ [join_user payload])))]
         else [])
        ++ [(sid, Emit (join_rid payload) (UserJoined (join_user payload)))]).
Proof.
  intros Hv Hm. rewrite rooms_step, out_step. simpl.
  rewrite on_join_valid by done. simpl.
  unfold room_members, member in *. rewrite get_set_eq.
  assert (Hvals :
    JsMap.values
      (JsMap.set (join_uid payload) (join_user payload)
         (default JsMap.empty (JsMap.get (join_rid payload) (rooms w))))
    = (match JsMap.get (join_rid payload) (rooms w) with
       | Some m => JsMap.values m
       | None => []
       end ++ [join_user payload])).
  { destruct (JsMap.get (join_rid payload) (rooms w)) as [m|]; simpl; [|done].
    rewrite set_absent by done. unfold JsMap.values. by rewrite map_app. }
  rewrite Hvals. split; [done|]. by destruct ack.
Qed.

Lemma X6_join_appends_witness :
  room_members
    (rooms (step (state_after ev_one_member) (EJoin 2 join_x1_u2 true)).1) (lit "X1")
    = [user "u1" "Ann" "p1"; user "u2" "Bob" "p2"]
  /\ (step (state_after ev_one_member) (EJoin 2 join_x1_u2 true)).2 =
       [(2, Ack (AckOk [user "u1" "Ann" "p1";
                        user "u2" "Bob" "p2"]));
        (2, Emit (lit "X1") (UserJoined (user "u2" "Bob" "p2")))].
Proof.
  apply (X6_join_appends (state_after ev_one_member) 2 join_x1_u2 true).
  - unfold valid_join. split_and!; vm_compute; congruence.
  - reflexivity.
Defined.

(** X7. In every reachable state, a join of a uid that is not in the room,
    followed by the leave for the same room id and uid, gives back the
    registry as it was, rooms and members in their old order. *)
Theorem X7_join_leave_restores (evs : list Event) (sid sid' : nat)
    (jpl : option JoinPayload) (ack : bool) (lpl : option LeavePayload) :
  valid_join jpl ->
  leave_rid lpl = join_rid jpl -> leave_uid lpl = join_uid jpl ->
  member (rooms (state_after evs)) (join_rid jpl) (join_uid jpl) = None ->
  rooms (step (step (state_after evs) (EJoin sid jpl ack)).1
           (ELeave sid' lpl)).1
  = rooms (state_after evs).
Proof.
  intros Hv Hr Hu Hm.
  pose proof (registry_ok_reachable evs) as Hok.
  set (w := state_after evs) in *.
  assert (Hvl : valid_leave lpl).
  { unfold valid_leave. rewrite Hr, Hu. by destruct Hv as (? & ? & _). }
  rewrite !rooms_step. simpl.
  rewrite on_leave_valid by done. rewrite Hr, Hu.
  rewrite on_join_valid by done. simpl. rewrite get_set_eq.
  unfold member in Hm. unfold remove_member.
  destruct (JsMap.get (join_rid jpl) (rooms w)) as [m|] eqn:Hg; simpl.
  - rewrite set_absent by done. rewrite delete_appended by done.
    rewrite set_set.
    destruct (room_ok_lookup _ _ _ Hok Hg) as (Hne & _). simpl in Hne.
    destruct (Nat.eqb (JsMap.size m) 0) eqn:E.
    + by apply size_0_nil in E.
    + by apply set_same.
  - rewrite str_eqb_refl. simpl. rewrite set_set.
    rewrite set_absent by done. by apply delete_appended.
Qed.

Lemma X7_join_leave_restores_witness :
  rooms (step (step (state_after ev_one_member) (EJoin 2 join_x1_u2 true)).1
           (ELeave 2 (leave_of "X1" "u2"))).1
  = rooms (state_after ev_one_member).
Proof.
  apply (X7_join_leave_restores ev_one_member 2 2 join_x1_u2 true
           (leave_of "X1" "u2"));
    try reflexivity.
  unfold valid_join. split_and!; vm_compute; congruence.
Defined.

(** X8. In every reachable state, sending the same leave a second time does
    not change the registry any further. *)
Theorem X8_leave_twice (evs : list Event) (sid sid' : nat)
    (payload : option LeavePayload) :
  rooms (step (step (state_after evs) (ELeave sid payload)).1
           (ELeave sid' payload)).1
  = rooms (step (state_after evs) (ELeave sid payload)).1.
Proof.
  pose proof (registry_ok_step _ (ELeave sid payload)
                (registry_ok_reachable evs)) as Hok1.
  pose proof (fun Hv => member_leave payload (rooms (state_after evs))
                (socket_of (state_after evs) sid) (leave_rid payload)
                (leave_uid payload) (registry_ok_reachable evs) Hv) as Hgone.
  pose proof (rooms_step (state_after evs) (ELeave sid payload)) as Hrs.
  simpl in Hrs. rewrite <- Hrs in Hgone. clear Hrs.
  set (w1 := (step (state_after evs) (ELeave sid payload)).1) in *.
  rewrite (rooms_step w1). simpl.
  destruct (decide (valid_leave payload)) as [Hv|Hn];
    [|by rewrite on_leave_invalid].
  specialize (Hgone Hv). rewrite decide_True in Hgone by done.
  rewrite on_leave_valid by done. unfold member in Hgone.
  destruct (JsMap.get (leave_rid payload) (rooms w1)) as [m|] eqn:Hg;
    simpl; [|done].
  apply remove_member_absent; [done| |done].
  by destruct (room_ok_lookup _ _ _ Hok1 Hg) as (? & _).
Qed.

(** ** Where the records come from *)

Section Provenance.

(** A record found after one event was there before, or the event is the
    join that wrote it. *)
Lemma member_step w e rid k p :
  registry_ok (rooms w) ->
  (forall sid, session_ok (socket_of w sid)) ->
  member (rooms (step w e).1) rid k = Some p ->
  member (rooms w) rid k = Some p \/
  exists sid payload ack,
    e = EJoin sid payload ack /\ valid_join payload /\
    join_rid payload = rid /\ join_uid payload = k /\ join_user payload = p.
Proof.
  intros Hok Hs. rewrite rooms_step.
  destruct e as [sid payload ack|sid payload|sid]; simpl.
  - destruct (decide (valid_join payload)) as [Hv|Hn];
      [|rewrite on_join_invalid by done; by left].
    rewrite member_join by done.
    destruct (decide _) as [[-> ->]|]; [|by left].
    intros [= <-]. right. by exists sid, payload, ack.
  - destruct (decide (valid_leave payload)) as [Hv|Hn];
      [|rewrite on_leave_invalid by done; by left].
    rewrite member_leave by done.
    destruct (decide _); [done|by left].
  - destruct (on_disconnect_cases (rooms w) (socket_of w sid))
      as [->|(r & u & m & _ & _ & _ & _ & Hg & ->)]; simpl; [by left|].
    rewrite member_remove by done.
    destruct (decide _); [done|by left].
Qed.

Lemma member_run evs w rid k p :
  registry_ok (rooms w) ->
  (forall sid, session_ok (socket_of w sid)) ->
  member (rooms (run w evs).1) rid k = Some p ->
  member (rooms w) rid k = Some p \/
  exists sid payload ack,
    EJoin sid payload ack ∈ evs /\ valid_join payload /\
    join_rid payload = rid /\ join_uid payload = k /\ join_user payload = p.
Proof.
  revert w. induction evs as [|e evs IH]; intros w Hok Hs; simpl; [by left|].
  pose proof (registry_ok_step w e Hok) as Hok1.
  pose proof (session_ok_step w e Hs) as Hs1.
  pose proof (member_step w e rid k p Hok Hs) as Hstep.
  destruct (step w e) as [w1 out1]. simpl in *.
  specialize (IH w1 Hok1 Hs1).
  destruct (run w1 evs) as [w2 out2]. simpl in *.
  intros Hm. destruct (IH Hm) as [Hm1|(sid & payload & ack & Hin & Hrest)].
  - destruct (Hstep Hm1) as [?|(sid & payload & ack & -> & Hrest)];
      [by left|].
    right. exists sid, payload, ack. split; [apply list_elem_of_here|done].
  - right. exists sid, payload, ack.
    split; [by apply list_elem_of_further|done].
Qed.

End Provenance.

(** X9. Every record of a reachable registry was written by a join of the
    history that passed the check: it is stored under the normalized room id
    and the trimmed uid of that join and holds the fields the join handler
    computed from the payload. *)
Theorem X9_record_provenance (evs : list Event) (rid k : jsstring)
    (p : VideoUser) :
  member (rooms (state_after evs)) rid k = Some p ->
  exists sid payload ack,
    EJoin sid payload ack ∈ evs /\ valid_join payload /\
    join_rid payload = rid /\ join_uid payload = k /\ join_user payload = p.
Proof.
  intros Hm.
  destruct (member_run evs init rid k p) as [Hinit|H]; try done.
  - apply registry_ok_empty.
  - intros sid. by left.
Qed.

Lemma X9_record_provenance_witness :
  exists sid payload ack,
    EJoin sid payload ack ∈ ev_two_members /\ valid_join payload /\
    join_rid payload = lit "R" /\ join_uid payload = lit "u2" /\
    join_user payload = user "u2" "Bob" "p2".
Proof.
  apply (X9_record_provenance ev_two_members (lit "R") (lit "u2")
           (user "u2" "Bob" "p2")).
  reflexivity.
Defined.

Lemma no_ws_ends_fixed (s : jsstring) : Js.trim s = s -> no_ws_ends s.
Proof. intros <-. apply no_ws_ends_trim. Qed.

Lemma no_ws_ends_join_name payload : no_ws_ends (join_name payload).
Proof.
  unfold join_name, Js.str_or.
  destruct (Js.truthy_str _); [apply no_ws_ends_trim|].
  split; intros u; vm_compute; by intros [= <-].
Qed.

(** X10. Every record of a reachable registry has a uid, a name and a peer
    id that are not empty, that [trim] leaves unchanged, and whose first
    and last code units are no white space. *)
Theorem X10_records_trimmed (evs : list Event) (rid k : jsstring)
    (p : VideoUser) :
  member (rooms (state_after evs)) rid k = Some p ->
  (uid p <> [] /\ Js.trim (uid p) = uid p /\ no_ws_ends (uid p)) /\
  (name p <> [] /\ Js.trim (name p) = name p /\ no_ws_ends (name p)) /\
  (peerId p <> [] /\ Js.trim (peerId p) = peerId p
   /\ no_ws_ends (peerId p)).
Proof.
  intros Hm.
  destruct (member_run evs init rid k p)
    as [Hinit|(sid & payload & ack & _ & (_ & Hu & Hp) & _ & _ & <-)];
    try done.
  - apply registry_ok_empty.
  - intros sid. by left.
  - simpl. split_and!; try done.
    + apply trim_idem.
    + apply no_ws_ends_trim.
    + unfold join_name, Js.str_or.
      destruct (Js.truthy_str _) eqn:E; [|done].
      by apply truthy_str_nonempty.
    + unfold join_name, Js.str_or.
      destruct (Js.truthy_str _); [apply trim_idem|by vm_compute].
    + apply no_ws_ends_join_name.
    + apply trim_idem.
    + apply no_ws_ends_trim.
Qed.

Lemma X10_records_trimmed_witness :
  (lit "u1" <> [] /\ Js.trim (lit "u1") = lit "u1" /\ no_ws_ends (lit "u1"))
  /\ (lit "Guest" <> [] /\ Js.trim (lit "Guest") = lit "Guest"
      /\ no_ws_ends (lit "Guest"))
  /\ (lit "p1" <> [] /\ Js.trim (lit "p1") = lit "p1"
      /\ no_ws_ends (lit "p1")).
Proof.
  apply (X10_records_trimmed ev_padded cafe_id (lit "u1")
           (user "u1" "Guest" "p1")).
  by vm_compute.
Defined.

(** X11. In every reachable state the members of a room have pairwise
    distinct uids, so a peers list never names a user twice. *)
Theorem X11_members_distinct (evs : list Event) (rid : jsstring) :
  NoDup (List.map uid (room_members (rooms (state_after evs)) rid)).
Proof.
  pose proof (registry_ok_reachable evs) as Hok.
  unfold room_members.
  destruct (JsMap.get rid (rooms (state_after evs))) as [m|] eqn:Hg;
    [|apply NoDup_nil_2].
  destruct (room_ok_lookup _ _ _ Hok Hg) as (_ & Hwf & _ & _ & Hall).
  simpl in *. unfold JsMap.wf, JsMap.keys, JsMap.values in *.
  replace (List.map uid (List.map snd m)) with (List.map fst m); [done|].
  clear Hwf Hg. induction Hall as [|[k p] m (Hk & _) _ IH]; simpl; [done|].
  simpl in Hk. by rewrite Hk, IH.
Qed.

(** ** Sockets name rooms by normalized ids *)

Section SocketNorm.

Lemma room_id_join payload : valid_join payload -> room_id (join_rid payload).
Proof.
  intros (Hr & _). split; [done|]. apply normRoomId_Str_fixed.
Qed.

Lemma room_id_leave payload :
  valid_leave payload -> room_id (leave_rid payload).
Proof.
  intros (Hr & _). split; [done|]. apply normRoomId_Str_fixed.
Qed.

Lemma socket_norm_handle e rs s :
  socket_norm s -> socket_norm (handle e rs s).1.2.
Proof.
  intros (Hr & Hu & Hg).
  destruct e as [sid payload ack|sid payload|sid]; simpl.
  - destruct (decide (valid_join payload)) as [Hv|Hn];
      [|by rewrite on_join_invalid].
    rewrite on_join_valid by done. simpl.
    split_and!; simpl.
    + intros rid [= <-]. by apply room_id_join.
    + intros u [= <-]. destruct Hv as (_ & ? & _).
      split; [done|apply trim_idem].
    + intros g [Hin|Hin]%elem_of_union; [|by apply Hg].
      apply elem_of_singleton in Hin as ->. by apply room_id_join.
  - unfold on_leave.
    destruct (negb _ || negb _); [done|].
    destruct (JsMap.get _ rs); [|done]. simpl.
    split_and!; [done|done|].
    intros g [Hin _]%elem_of_difference. by apply Hg.
  - by rewrite on_disconnect_socket.
Qed.

Lemma socket_norm_step w e :
  (forall sid, socket_norm (socket_of w sid)) ->
  forall sid, socket_norm (socket_of (step w e).1 sid).
Proof.
  intros Hw sid.
  destruct (decide (event_socket e = sid)) as [<-|Hne].
  - rewrite socket_of_step_same. apply socket_norm_handle, Hw.
  - by rewrite socket_of_step_other.
Qed.

Lemma socket_norm_fresh : socket_norm fresh_socket.
Proof.
  split_and!; [done|done|]. intros g Hin. by apply not_elem_of_empty in Hin.
Qed.

Lemma socket_norm_run evs w :
  (forall sid, socket_norm (socket_of w sid)) ->
  forall sid, socket_norm (socket_of (run w evs).1 sid).
Proof.
  revert w. induction evs as [|e evs IH]; intros w Hw; simpl; [done|].
  pose proof (socket_norm_step w e Hw) as H1.
  destruct (step w e) as [w1 out1]. simpl in H1.
  specialize (IH w1 H1).
  by destruct (run w1 evs) as [w2 out2].
Qed.

Lemma emit_ok_handle e rs s :
  socket_norm s -> Forall emit_ok (handle e rs s).2.
Proof.
  intros (Hr & Hu & _).
  destruct e as [sid payload ack|sid payload|sid]; simpl.
  - destruct (decide (valid_join payload)) as [Hv|Hn].
    + rewrite on_join_valid by done. simpl.
      apply Forall_app. split.
      * destruct ack; simpl; [|apply Forall_nil_2].
        by apply Forall_cons; split; [|apply Forall_nil_2].
      * apply Forall_cons; split; [|apply Forall_nil_2].
        simpl. split_and!; [by apply room_id_join|apply Hv|apply Hv].
    + rewrite on_join_invalid by done.
      destruct ack; simpl; [|apply Forall_nil_2].
      by apply Forall_cons; split; [|apply Forall_nil_2].
  - destruct (decide (valid_leave payload)) as [Hv|Hn];
      [|by rewrite on_leave_invalid].
    rewrite on_leave_valid by done.
    destruct (JsMap.get _ rs); simpl; [|apply Forall_nil_2].
    apply Forall_cons; split; [|apply Forall_nil_2].
    simpl. split; [by apply room_id_leave|apply Hv].
  - destruct (on_disconnect_cases rs s)
      as [->|(r & u & m & Hdr & Hdu & _ & Hune & _ & ->)]; simpl;
      [apply Forall_nil_2|].
    apply Forall_cons; split; [|apply Forall_nil_2].
    simpl. split; [by apply Hr|done].
Qed.

Lemma emit_ok_run evs w :
  (forall sid, socket_norm (socket_of w sid)) ->
  Forall (fun x => emit_ok x.2) (run w evs).2.
Proof.
  revert w. induction evs as [|e evs IH]; intros w Hw; simpl; [done|].
  pose proof (socket_norm_step w e Hw) as H1.
  pose proof (emit_ok_handle e (rooms w) (socket_of w (event_socket e))
                (Hw _)) as Hout.
  rewrite <- (Forall_fmap (pair (event_socket e)) (fun x => emit_ok x.2)) in Hout.
  change (fmap (pair (event_socket e)) ?l)
    with (map (pair (event_socket e)) l) in Hout.
  rewrite <- out_step in Hout.
  destruct (step w e) as [w1 out1]. simpl in *.
  specialize (IH w1 H1).
  destruct (run w1 evs) as [w2 out2]. simpl in *.
  apply Forall_app. by split.
Qed.

End SocketNorm.

Lemma room_id_shape (rid : jsstring) :
  room_id rid -> no_ws_ends rid /\ no_lower rid.
Proof.
  intros [_ <-]. split; [apply no_ws_ends_normRoomId|apply no_lower_normRoomId].
Qed.

(** X12. In every reachable state, the room id of a socket's session and the
    names of the transport groups the socket is in are non-empty fixed
    points of [normRoomId], without white space at either end and without a
    code unit that upper-casing changes; and the uid of the session is not
    empty, unchanged by [trim] and without white space at either end. *)
Theorem X12_socket_normalized (evs : list Event) (sid : nat) :
  (forall rid, data_rid (socket_of (state_after evs) sid) = Some rid ->
     rid <> [] /\ normRoomId (Js.Str rid) = rid
     /\ no_ws_ends rid /\ no_lower rid) /\
  (forall u, data_uid (socket_of (state_after evs) sid) = Some u ->
     u <> [] /\ Js.trim u = u /\ no_ws_ends u) /\
  (forall g, g ∈ groups (socket_of (state_after evs) sid) ->
     g <> [] /\ normRoomId (Js.Str g) = g /\ no_ws_ends g /\ no_lower g).
Proof.
  destruct (socket_norm_run evs init (fun _ => socket_norm_fresh) sid)
    as (Hr & Hu & Hg).
  split_and!.
  - intros rid Hrid. pose proof (Hr rid Hrid) as Hid.
    destruct (room_id_shape rid Hid). by destruct Hid.
  - intros u Hu'. destruct (Hu u Hu') as [? Ht].
    split_and!; [done|done|by apply no_ws_ends_fixed].
  - intros g Hin. pose proof (Hg g Hin) as Hid.
    destruct (room_id_shape g Hid). by destruct Hid.
Qed.

Lemma X12_socket_normalized_witness :
  (cafe_id <> [] /\ normRoomId (Js.Str cafe_id) = cafe_id
   /\ no_ws_ends cafe_id /\ no_lower cafe_id) /\
  (lit "u1" <> [] /\ Js.trim (lit "u1") = lit "u1" /\ no_ws_ends (lit "u1")).
Proof.
  destruct (X12_socket_normalized ev_padded 1) as (Hr & Hu & _).
  split; [apply Hr|apply Hu]; by vm_compute.
Defined.

(** X13. Whatever the events, every broadcast the server sends goes to a
    room named by a non-empty normalized id, without white space at either
    end and without a code unit that upper-casing changes; a [user-joined]
    carries a non-empty uid and peer id, a [user-left] a non-empty uid. *)
Theorem X13_broadcasts_wellformed (evs : list Event) (sid : nat)
    (rid : jsstring) (ev : ServerEvent) :
  (sid, Emit rid ev) ∈ (run init evs).2 ->
  (rid <> [] /\ normRoomId (Js.Str rid) = rid
   /\ no_ws_ends rid /\ no_lower rid) /\
  match ev with
  | UserJoined u => uid u <> [] /\ peerId u <> []
  | UserLeft u => u <> []
  end.
Proof.
  intros Hin.
  pose proof (emit_ok_run evs init (fun _ => socket_norm_fresh)) as Hall.
  eapply Forall_forall in Hall; [|exact Hin]. simpl in Hall.
  destruct ev as [u|u].
  - destruct Hall as (Hid & ? & ?).
    destruct (room_id_shape rid Hid). by destruct Hid.
  - destruct Hall as (Hid & ?).
    destruct (room_id_shape rid Hid). by destruct Hid.
Qed.

Lemma X13_broadcasts_wellformed_witness :
  (cafe_id <> [] /\ normRoomId (Js.Str cafe_id) = cafe_id
   /\ no_ws_ends cafe_id /\ no_lower cafe_id) /\
  (lit "u1" <> [] /\ lit "p1" <> []).
Proof.
  apply (X13_broadcasts_wellformed ev_padded 1 cafe_id
           (UserJoined (user "u1" "Guest" "p1"))).
  vm_compute. apply list_elem_of_further, list_elem_of_here.
Defined.

(** ** Allowed origins *)

Section Origins.

Lemma startsWith_app (p s : jsstring) :
  startsWith p s = true <-> exists r, s = p ++ r.
Proof.
  revert s. induction p as [|a p IH]; intros s.
  - split; [intros _; by exists s|by destruct s].
  - destruct s as [|b s]; simpl; [split; [done|by intros [r ?]]|].
    destruct (N.eqb_spec a b) as [->|Hne]; simpl.
    + rewrite IH. split; intros [r Hr]; exists r; congruence.
    + split; [done|]. intros [r Hr]. congruence.
Qed.

Lemma includes_elem (x : jsstring) (arr : list jsstring) :
  includes x arr = true <-> x ∈ arr.
Proof.
  unfold includes. rewrite existsb_exists. split.
  - intros (y & Hin & ->%str_eqb_eq). by apply list_elem_of_In.
  - intros Hin. exists x. split; [by apply list_elem_of_In|].
    apply str_eqb_refl.
Qed.

Lemma split_on_not_nil sep s : split_on sep s <> [].
Proof.
  destruct s as [|a s]; simpl; [done|].
  destruct (N.eqb a sep); [done|]. by destruct (split_on sep s).
Qed.

(** No piece of a split holds the separator. *)
Lemma split_on_pieces sep s :
  Forall (fun o => contains sep o = false) (split_on sep s).
Proof.
  induction s as [|a s IH]; simpl.
  - by apply Forall_cons; split; [|apply Forall_nil_2].
  - destruct (N.eqb a sep) eqn:E.
    + by apply Forall_cons.
    + destruct (split_on sep s) as [|h t]; simpl.
      * apply Forall_cons; split; [|apply Forall_nil_2]. simpl.
        by rewrite E.
      * apply Forall_cons in IH as [Hh Ht].
        apply Forall_cons; split; [|done]. simpl. by rewrite E.
Qed.

(** A string without the separator is one piece. *)
Lemma split_on_one sep s : contains sep s = false -> split_on sep s = [s].
Proof.
  induction s as [|a s IH]; simpl; [done|].
  intros [Ha Hs]%orb_false_elim. rewrite Ha. by rewrite IH.
Qed.

Lemma split_on_app sep o rest :
  contains sep o = false ->
  split_on sep (o ++ sep :: rest) = o :: split_on sep rest.
Proof.
  induction o as [|a o IH]; simpl.
  - intros _. by rewrite N.eqb_refl.
  - intros [Ha Hs]%orb_false_elim. rewrite Ha. by rewrite IH.
Qed.

Lemma contains_trimStart c s :
  contains c s = false -> contains c (Js.trimStart s) = false.
Proof.
  induction s as [|a s IH]; simpl; [done|].
  intros [Ha Hs]%orb_false_elim.
  destruct (Js.is_ws a); [by apply IH|]. simpl. by rewrite Ha, Hs.
Qed.

Lemma contains_trimEnd c s :
  contains c s = false -> contains c (Js.trimEnd s) = false.
Proof.
  induction s as [|a s IH]; simpl; [done|].
  intros [Ha Hs]%orb_false_elim. specialize (IH Hs).
  destruct (Js.trimEnd s) as [|b r].
  - destruct (Js.is_ws a); simpl; [done|]. by rewrite Ha.
  - simpl in *. by rewrite Ha, IH.
Qed.

Lemma contains_trim c s :
  contains c s = false -> contains c (Js.trim s) = false.
Proof. intros H. by apply contains_trimEnd, contains_trimStart. Qed.

Lemma parse_origins_cons o rest :
  origin_entry o ->
  parse_origins (o ++ comma :: rest) = o :: parse_origins rest.
Proof.
  intros (Hne & Htrim & Hc). unfold parse_origins.
  rewrite split_on_app by done. simpl. rewrite Htrim.
  apply truthy_str_nonempty in Hne. by rewrite Hne.
Qed.

Lemma parse_origins_one o : origin_entry o -> parse_origins o = [o].
Proof.
  intros (Hne & Htrim & Hc). unfold parse_origins.
  rewrite split_on_one by done. simpl. rewrite Htrim.
  apply truthy_str_nonempty in Hne. by rewrite Hne.
Qed.

Lemma parse_comma_joined l :
  Forall origin_entry l -> parse_origins (comma_joined l) = l.
Proof.
  induction 1 as [|o l Ho Hl IH]; [done|].
  destruct l as [|o' l'].
  - by apply parse_origins_one.
  - change (comma_joined (o :: o' :: l'))
      with (o ++ comma :: comma_joined (o' :: l')).
    rewrite parse_origins_cons by done. by rewrite IH.
Qed.

Lemma comma_joined_nonempty l :
  l <> [] -> Forall origin_entry l -> comma_joined l <> [].
Proof.
  intros Hne Hall. destruct Hall as [|o l (Ho & _) Hl]; [done|].
  destruct l; simpl; [done|]. by destruct o.
Qed.

End Origins.

(** X14. Whatever [CLIENT_ORIGIN] holds, every entry of [allowedOrigins] is
    a non-empty string that [trim] leaves unchanged, whose first and last
    code units are no white space, and that holds no comma: blank pieces of
    the list are dropped. *)
Theorem X14_allowed_entries (env : option jsstring) (o : jsstring) :
  o ∈ allowedOrigins env ->
  o <> [] /\ Js.trim o = o /\ no_ws_ends o /\ contains comma o = false.
Proof.
  unfold allowedOrigins, parse_origins. intros Hin.
  apply list_elem_of_In, filter_In in Hin as [Hin Ht].
  apply in_map_iff in Hin as (x & <- & Hx).
  split_and!.
  - by apply truthy_str_nonempty.
  - apply trim_idem.
  - apply no_ws_ends_trim.
  - apply contains_trim.
    pose proof (split_on_pieces comma (rawOrigins env)) as Hall.
    rewrite List.Forall_forall in Hall. by apply Hall.
Qed.

(** [CLIENT_ORIGIN] with U+00A0 and spaces around the entries and blank
    pieces between them. *)
Lemma X14_allowed_entries_witness :
  lit "https://a.example" <> []
  /\ Js.trim (lit "https://a.example") = lit "https://a.example"
  /\ no_ws_ends (lit "https://a.example")
  /\ contains comma (lit "https://a.example") = false.
Proof.
  apply (X14_allowed_entries
           (Some ([160%N] ++ lit " https://a.example " ++ [160%N]
                  ++ lit ", ,https://b.example,"))).
  vm_compute. apply list_elem_of_here.
Defined.

(** X15. Writing a list of origins with commas between them and reading it
    back gives the list, when each origin is non-empty, trimmed and without
    comma; and a non-empty such list set as [CLIENT_ORIGIN] is exactly
    [allowedOrigins]. *)
Theorem X15_origins_round_trip (l : list jsstring) :
  Forall origin_entry l ->
  parse_origins (comma_joined l) = l /\
  (l <> [] -> allowedOrigins (Some (comma_joined l)) = l).
Proof.
  intros Hall. split; [by apply parse_comma_joined|].
  intros Hne. unfold allowedOrigins, rawOrigins, Js.str_or.
  pose proof (comma_joined_nonempty l Hne Hall) as Hj.
  apply truthy_str_nonempty in Hj. rewrite Hj.
  by apply parse_comma_joined.
Qed.

Lemma X15_origins_round_trip_witness :
  parse_origins (lit "https://a.example,https://b.example")
    = [(lit "https://a.example"); (lit "https://b.example")] /\
  ([(lit "https://a.example"); (lit "https://b.example")] <> [] ->
   allowedOrigins (Some (lit "https://a.example,https://b.example"))
     = [(lit "https://a.example"); (lit "https://b.example")]).
Proof.
  apply (X15_origins_round_trip [(lit "https://a.example"); (lit "https://b.example")]).
  repeat (apply Forall_cons; split; [by vm_compute|]). apply Forall_nil_2.
Defined.

(** X16. [isAllowedOrigin] lets through exactly: a missing or empty origin;
    any origin when ["*"] is among the allowed ones; an origin that is equal
    to an allowed one; and an origin that starts with
    ["http://localhost:"] or ["http://127.0.0.1:"], whatever follows. *)
Theorem X16_isAllowedOrigin_iff (allowed : list jsstring)
    (origin : option jsstring) :
  isAllowedOrigin allowed origin = true <->
  origin = None \/ origin = Some [] \/ (lit "*") ∈ allowed \/
  exists o, origin = Some o /\
    (o ∈ allowed \/ (exists r, o = lit "http://localhost:" ++ r)
     \/ (exists r, o = lit "http://127.0.0.1:" ++ r)).
Proof.
  destruct origin as [o|]; [|split; [by left|done]].
  destruct o as [|a o]; [split; [by right; left|done]|].
  unfold isAllowedOrigin.
  change (negb (Js.truthy_str (a :: o))) with false. cbv iota.
  set (x := a :: o).
  pose proof (includes_elem (lit "*") allowed) as Hstar.
  pose proof (includes_elem x allowed) as Hx.
  pose proof (startsWith_app (lit "http://localhost:") x) as Hl.
  pose proof (startsWith_app (lit "http://127.0.0.1:") x) as Hi.
  destruct (includes (lit "*") allowed);
    [split; [intros _; right; right; left; by apply Hstar|done]|].
  destruct (includes x allowed);
    [split; [intros _; right; right; right; exists x; split;
             [done|left; by apply Hx]|done]|].
  destruct (startsWith (lit "http://localhost:") x);
    [split; [intros _; right; right; right; exists x; split;
             [done|right; left; by apply Hl]|done]|].
  destruct (startsWith (lit "http://127.0.0.1:") x);
    [split; [intros _; right; right; right; exists x; split;
             [done|right; right; by apply Hi]|done]|].
  split; [done|].
  intros [?|[?|[H|(o' & [= <-] & [H|[H|H]])]]]; try done.
  - by apply Hstar in H.
  - by apply Hx in H.
  - by apply Hl in H.
  - by apply Hi in H.
Qed.

Lemma X16_isAllowedOrigin_iff_witness :
  isAllowedOrigin [] (Some (lit "http://localhost:8080")) = true.
Proof.
  apply (proj2 (X16_isAllowedOrigin_iff [] (Some (lit "http://localhost:8080")))).
  right; right; right. exists (lit "http://localhost:8080").
  split; [reflexivity|]. right; left. by exists (lit "8080").
Defined.

(** X17. Allowing more origins never shuts one out: an origin that passes
    with a list passes with every list that holds the same entries and
    more. *)
Theorem X17_isAllowedOrigin_monotone (allowed allowed' : list jsstring)
    (origin : option jsstring) :
  (forall o, o ∈ allowed -> o ∈ allowed') ->
  isAllowedOrigin allowed origin = true ->
  isAllowedOrigin allowed' origin = true.
Proof.
  intros Hsub. destruct origin as [o|]; [|done]. unfold isAllowedOrigin.
  destruct (negb (Js.truthy_str o)); [done|].
  pose proof (includes_elem (lit "*") allowed) as Hs.
  pose proof (includes_elem (lit "*") allowed') as Hs'.
  pose proof (includes_elem o allowed) as Ho.
  pose proof (includes_elem o allowed') as Ho'.
  destruct (includes (lit "*") allowed).
  - intros _. rewrite (proj2 Hs'); [done|]. by apply Hsub, Hs.
  - destruct (includes (lit "*") allowed'); [done|].
    destruct (includes o allowed); [|by destruct (includes o allowed')].
    intros _. rewrite (proj2 Ho'); [done|]. by apply Hsub, Ho.
Qed.

Lemma X17_isAllowedOrigin_monotone_witness :
  isAllowedOrigin [(lit "https://b.example"); (lit "https://a.example")]
    (Some (lit "https://a.example")) = true.
Proof.
  apply (X17_isAllowedOrigin_monotone [(lit "https://a.example")]
           [(lit "https://b.example"); (lit "https://a.example")]
           (Some (lit "https://a.example"))).
  - intros o Ho. apply list_elem_of_singleton in Ho as ->.
    apply list_elem_of_further, list_elem_of_here.
  - reflexivity.
Defined.

(** ** The order of the members *)

Section Order.

Lemma filter_uid_keep (k : jsstring) (m : JsMap.t VideoUser) :
  Forall user_ok m -> k ∉ JsMap.keys m ->
  filter (fun p => uid p <> k) (JsMap.values m) = JsMap.values m.
Proof.
  induction m as [|[k' v'] m IH]; simpl; intros Hall Hk; [done|].
  apply Forall_cons in Hall as [(Hu & _) Hall]. simpl in Hu.
  apply not_elem_of_cons in Hk as [Hne Hk].
  rewrite filter_cons_True by congruence. f_equal. by apply IH.
Qed.

Lemma values_delete (k : jsstring) (m : JsMap.t VideoUser) :
  JsMap.wf m -> Forall user_ok m ->
  JsMap.values (JsMap.delete k m)
  = filter (fun p => uid p <> k) (JsMap.values m).
Proof.
  unfold JsMap.wf.
  induction m as [|[k' v'] m IH]; simpl; intros Hnd Hall; [done|].
  apply NoDup_cons in Hnd as [Hk' Hnd].
  pose proof Hall as Hall'.
  apply Forall_cons in Hall' as [(Hu & _) Hm]. simpl in Hu.
  destruct (str_eqb_spec k k') as [->|Hne]; simpl.
  - rewrite filter_cons_False by (intros Hn; by apply Hn).
    symmetry. by apply filter_uid_keep.
  - rewrite filter_cons_True by congruence. f_equal. by apply IH.
Qed.

Lemma room_members_remove rid uid0 map rs :
  registry_ok rs -> JsMap.get rid rs = Some map ->
  room_members (remove_member rid uid0 map rs) rid
  = filter (fun p => uid p <> uid0) (room_members rs rid).
Proof.
  intros Hok Hg.
  destruct (room_ok_lookup _ _ _ Hok Hg) as (_ & Hwf & _ & _ & Hall).
  simpl in *. unfold room_members.
  rewrite get_remove_member by apply Hok. rewrite Hg.
  rewrite <- values_delete by done.
  destruct (Nat.eqb _ 0) eqn:E; [|done].
  apply size_0_nil in E. by rewrite E.
Qed.

End Order.

(** X18. In every reachable state, a leave with a non-empty room id and uid
    leaves in the room the members it had, in the order they had, without
    the one of that uid. *)
Theorem X18_leave_keeps_order (evs : list Event) (sid : nat)
    (payload : option LeavePayload) :
  valid_leave payload ->
  room_members (rooms (step (state_after evs) (ELeave sid payload)).1)
    (leave_rid payload)
  = filter (fun p => uid p <> leave_uid payload)
      (room_members (rooms (state_after evs)) (leave_rid payload)).
Proof.
  intros Hv. rewrite rooms_step. simpl. rewrite on_leave_valid by done.
  destruct (JsMap.get (leave_rid payload) (rooms (state_after evs)))
    as [m|] eqn:Hg; simpl.
  - apply room_members_remove; [apply registry_ok_reachable|done].
  - unfold room_members. by rewrite Hg.
Qed.

Lemma X18_leave_keeps_order_witness :
  room_members (rooms (step (state_after ev_two_members) (ELeave 2 leave_r_u1)).1)
    (lit "R")
  = [user "u2" "Bob" "p2"].
Proof.
  apply (X18_leave_keeps_order ev_two_members 2 leave_r_u1).
  unfold valid_leave. split; vm_compute; congruence.
Defined.
